(** * XOR with spiking neurons: time-to-first-spike decoding and fitness

    A shallow embedding of [examples/xor/evolve-spiking.py].

    Python floats are read as exact rationals ([Q]): the arithmetic of the
    example ([1.1 - 0.1 * abs (t0 - t1)], [dt * j], the squared error) is
    modelled without binary64 rounding.  Python exceptions are results
    ([Raise IndexError], [Raise KeyError]); a dict is a [gmap]; a list is a
    [list].  The library [neat.iznn] is not part of the example: its network
    is an interface ([Iznn]) whose operations the example calls. *)

From Stdlib Require Import ZArith QArith Qabs Qminmax Qround Lia Lqa.
From stdpp Require Import base option list gmap.

(** ** Python exceptions and containers *)

Inductive exn : Set := IndexError | KeyError.

Inductive result (A : Type) : Type :=
  | Ok (a : A)
  | Raise (e : exn).
Arguments Ok {A} a.
Arguments Raise {A} e.

#[export] Instance result_ret : MRet result := λ A a, Ok a.
#[export] Instance result_bind : MBind result :=
  λ A B f m, match m with Ok a => f a | Raise e => Raise e end.

(** Whether a result is a value. *)
Definition is_Ok {A} (r : result A) : bool :=
  match r with Ok _ => true | Raise _ => false end.

(** [l[i]] on a Python list: a negative index counts from the end, and an
    index outside [-len l, len l) raises [IndexError]. *)
Definition py_index {A} (l : list A) (i : Z) : result A :=
  let n := Z.of_nat (length l) in
  let k := if (i <? 0)%Z then (n + i)%Z else i in
  if ((0 <=? k) && (k <? n))%Z
  then from_option Ok (Raise IndexError) (l !! Z.to_nat k)
  else Raise IndexError.

(** [d[k]] on a Python dict: a missing key raises [KeyError]. *)
Definition py_getitem {V} (d : gmap Z V) (k : Z) : result V :=
  from_option Ok (Raise KeyError) (d !! k).

(** [x < y] on floats. *)
Definition Qltb (x y : Q) : bool :=
  match (x ?= y)%Q with Lt => true | _ => false end.

(** The builtin [min(a, b)]: the first argument unless the second is
    strictly smaller. *)
Definition py_min (a b : Q) : Q := if Qltb b a then b else a.

(** The builtin [max(a, b)]: the first argument unless the second is
    strictly larger. *)
Definition py_max (a b : Q) : Q := if Qltb a b then b else a.

(** [int(x)] on a float: truncation toward zero. *)
Definition py_int (x : Q) : Z := (Qnum x ÷ Z.pos (Qden x))%Z.

(** [for j in range(n): s = body(j, s)], stopping at the first exception. *)
Fixpoint for_each {J S} (body : J → S → result S) (js : list J) (s : S)
  : result S :=
  match js with
  | [] => Ok s
  | j :: js' => s' ← body j s; for_each body js' s'
  end.

(** ** Module-level constants *)

Definition xor_inputs : list (Z * Z) := [(0, 0); (0, 1); (1, 0); (1, 1)]%Z.
Definition xor_outputs : list Z := [0; 1; 1; 0]%Z.

Definition max_time : Q := 50.0.
Definition dt : Q := 0.25.

(** ** [compute_output] *)

Definition compute_output (t0 t1 : option Q) : Q :=
  match t0, t1 with
  | Some a, Some b =>
      let response := (1.1 - 0.1 * Qabs (a - b))%Q in
      py_max 0.0 (py_min 1.0 response)
  | _, _ => (-1.0)%Q
  end.


(** ** The network interface of [neat.iznn]

    What the example uses of the library: a phenotype is built from a genome
    and neuron parameters; [net.neurons] is a dict from neuron id to neuron,
    of which only the membrane potential [n.v] is read; [net.outputs] is the
    list of output neuron ids; [reset], [set_inputs] and [advance] mutate the
    network, and [advance] returns the list of output values of the step.
    [set_fitness f g] is the assignment [g.fitness = f]. *)
Class Iznn : Type := {
  genome : Type;
  params : Type;
  network : Type;
  FAST_SPIKING_PARAMS : params;
  create_phenotype : genome → params → network;
  neurons : network → gmap Z Q;
  outputs : network → list Z;
  reset : network → network;
  set_inputs : Z * Z → network → network;
  advance : Q → network → network * list Q;
  set_fitness : Q → genome → genome;
}.

(** The per-neuron traces [neuron_data]: neuron id to the list of the
    [(t, n.v)] samples appended so far. *)
Abbreviation traces := (gmap Z (list (Q * Q))).

(** One element of [simulated]:
    [(inputData, outputData, t0, t1, v0, v1, neuron_data)]. *)
Record trial_record : Type := TrialRecord {
  tr_input : Z * Z;
  tr_expected : Z;
  tr_t0 : option Q;
  tr_t1 : option Q;
  tr_v0 : option Q;
  tr_v1 : option Q;
  tr_data : traces;
}.

Section Evaluator.
Context `{lib : Iznn}.

(** The local variables of one trial that the step loop updates. *)
Record loop_state : Type := LoopState {
  st_net : network;
  st_data : traces;
  st_t0 : option Q;
  st_v0 : option Q;
  st_t1 : option Q;
  st_v1 : option Q;
}.

Definition neuron_params : params := FAST_SPIKING_PARAMS.

Definition num_steps : nat := Z.to_nat (py_int (max_time / dt)).

(** [for i, n in net.neurons.items(): neuron_data[i] = []] *)
Definition init_data (ns : gmap Z Q) : traces := (λ _, []) <$> ns.

(** [for i, n in net.neurons.items(): neuron_data[i].append((t, n.v))]:
    every neuron of the network gets one more sample; a neuron without a
    list in [neuron_data] raises [KeyError]. *)
Definition append_samples (t : Q) (ns : gmap Z Q) (nd : traces)
  : result traces :=
  if decide (dom ns ⊆ dom nd)
  then Ok (map_imap (λ i l,
             Some (match ns !! i with Some v => l ++ [(t, v)] | None => l end)) nd)
  else Raise KeyError.

(** [if tk is None and output[k] > 0:
       tk, vk = neuron_data[net.outputs[k]][-2]]
    for the output slot [k]; [and] does not evaluate [output[k]] once [tk]
    is set. *)
Definition capture (k : Z) (tk vk : option Q) (output : list Q)
    (outs : list Z) (nd : traces) : result (option Q * option Q) :=
  match tk with
  | Some _ => Ok (tk, vk)
  | None =>
      o ← py_index output k;
      if Qltb 0 o then
        i ← py_index outs k;
        samples ← py_getitem nd i;
        '(t, v) ← py_index samples (-2);
        Ok (Some t, Some v)
      else Ok (tk, vk)
  end.

(** The body of [for j in range(num_steps)]. *)
Definition step (j : nat) (st : loop_state) : result loop_state :=
  let t := (dt * inject_Z (Z.of_nat j))%Q in
  let '(net, output) := advance dt (st_net st) in
  nd ← append_samples t (neurons net) (st_data st);
  '(t0, v0) ← capture 0 (st_t0 st) (st_v0 st) output (outputs net) nd;
  '(t1, v1) ← capture 1 (st_t1 st) (st_v1 st) output (outputs net) nd;
  Ok (LoopState net nd t0 v0 t1 v1).

(** The state in which the step loop of a trial starts. *)
Definition trial_start (net : network) (inputData : Z * Z) : loop_state :=
  let neuron_data := init_data (neurons net) in
  let net := reset net in
  let net := set_inputs inputData net in
  LoopState net neuron_data None None None None.

(** The step loop of one trial. *)
Definition run_steps (net : network) (inputData : Z * Z) : result loop_state :=
  for_each step (seq 0 num_steps) (trial_start net inputData).

(** The body of [for inputData, outputData in zip(xor_inputs, xor_outputs)],
    on the variables [net], [sum_square_error] and [simulated]. *)
Definition trial (row : (Z * Z) * Z) (acc : network * Q * list trial_record)
  : result (network * Q * list trial_record) :=
  let '(inputData, outputData) := row in
  let '(net, sum_square_error, simulated) := acc in
  st ← run_steps net inputData;
  let response := compute_output (st_t0 st) (st_t1 st) in
  let sum_square_error :=
    (sum_square_error + (response - inject_Z outputData) ^ 2)%Q in
  Ok (st_net st, sum_square_error,
      simulated ++ [TrialRecord inputData outputData (st_t0 st) (st_t1 st)
                      (st_v0 st) (st_v1 st) (st_data st)]).

Definition simulate (g : genome) : result (Q * list trial_record) :=
  let net := create_phenotype g neuron_params in
  '(_, sum_square_error, simulated) ←
    for_each trial (zip xor_inputs xor_outputs) (net, 0.0%Q, []);
  Ok (sum_square_error, simulated).

(** [eval_fitness]: every genome gets [1 - sum_square_error]; an exception
    of [simulate] ends the loop. *)
Fixpoint eval_fitness (genomes : list genome) : result (list genome) :=
  match genomes with
  | [] => Ok []
  | g :: rest =>
      '(sum_square_error, simulated) ← simulate g;
      let g := set_fitness (1 - sum_square_error)%Q g in
      rest ← eval_fitness rest;
      Ok (g :: rest)
  end.

End Evaluator.

(** ** Vocabulary for the statements

    The network after [k] calls of [advance], the outputs and the potentials
    observed at a step, and the samples the step loop appends to the trace
    of one neuron. *)

Section Observations.
Context `{lib : Iznn}.

(** The network after [k] calls of [net.advance(dt)]. *)
Definition advance_n (k : nat) (net : network) : network :=
  Nat.iter k (λ n, (advance dt n).1) net.

(** The list [output] that the call of [advance] at step [j] returns, for a
    step loop started on [net]. *)
Definition output_at (net : network) (j : nat) : list Q :=
  (advance dt (advance_n j net)).2.

(** The potential [n.v] of neuron [i] read at step [j], after the call of
    [advance] of that step. *)
Definition sample_at (net : network) (j : nat) (i : Z) : option Q :=
  neurons (advance_n (S j) net) !! i.

(** [output[k] > 0]: a firing is detected on output slot [k]. *)
Definition fires (k : Z) (output : list Q) : bool :=
  match py_index output k with
  | Ok o => Qltb 0 o
  | Raise _ => false
  end.

(** The samples that [m] steps, numbered from [j] and started on [net],
    append to the trace of neuron [i]. *)
Fixpoint samples (net : network) (j m : nat) (i : Z) : list (Q * Q) :=
  match m with
  | O => []
  | S m' =>
      let net' := (advance dt net).1 in
      match neurons net' !! i with
      | Some v => [((dt * inject_Z (Z.of_nat j))%Q, v)]
      | None => []
      end ++ samples net' (S j) m' i
  end.

(** During [m] steps started on [net] the network is steady on the set [D]
    of neuron ids: it keeps exactly the neurons [D], [advance] returns at
    least two output values, and [net.outputs] starts with two ids of [D]. *)
Definition steady (net : network) (D : gset Z) (m : nat) : Prop :=
  ∀ n, (n < m)%nat →
    dom (neurons (advance_n (S n) net)) = D
    ∧ (2 ≤ length (output_at net n))%nat
    ∧ ∀ k, (k < 2)%nat →
        ∃ o, outputs (advance_n (S n) net) !! k = Some o ∧ o ∈ D.

(** The traces after [j] steps on a steady network: one trace of [j]
    samples for every neuron of [D], and no other trace. *)
Definition traced (D : gset Z) (j : nat) (nd : traces) : Prop :=
  ∀ i, (i ∈ D → ∃ l, nd !! i = Some l ∧ length l = j)
       ∧ (is_Some (nd !! i) → i ∈ D).

(** The first-spike time and potential variables of output slot [k]:
    [t0], [v0] for slot 0 and [t1], [v1] for slot 1. *)
Definition st_t (k : Z) (st : loop_state) : option Q :=
  if decide (k = 0%Z) then st_t0 st else st_t1 st.

Definition st_v (k : Z) (st : loop_state) : option Q :=
  if decide (k = 0%Z) then st_v0 st else st_v1 st.

(** The squared error of one recorded trial. *)
Definition trial_error (r : trial_record) : Q :=
  ((compute_output (tr_t0 r) (tr_t1 r) - inject_Z (tr_expected r)) ^ 2)%Q.

End Observations.

(** ** The replay of the winner in [run]

    After the evolution [run] builds the phenotype of the winner again and
    runs the four rows on it, printing [inputData] and the decoded response
    of each row.  The step loop is the one of [simulate], except that [v0] and
    [v1] are not initialised: they are assigned together with the times and
    never read, so only the times are part of the state.  What has been
    printed stays printed when a later row raises: the replay returns the
    printed lines and how it ended. *)

Section Replay.
Context `{lib : Iznn}.









End Replay.

(** ** Two runs side by side

    Two results agree when both are values related by [P] or both raise the
    same exception; two loop states, or two accumulators of [simulate], agree
    when their networks are related by [R] and all else is equal. *)




(** Whether two rationals are the same fraction is decidable. *)
#[export] Instance Q_eq_dec : EqDecision Q.
Proof. solve_decision. Defined.

(** ** A scripted network

    A stand-in for a [neat.iznn] network on which the statements are run: its
    genome is a script that gives, for each input row, the steps at which
    output 0 and output 1 fire.  It has the two output neurons 0 and 1 and a
    hidden neuron 2, whose potentials drift with the number of steps since
    the last reset. *)

Module Scripted.

Record net : Type := Net {
  script : Z * Z → list nat * list nat;
  inputs : Z * Z;
  clock : nat;
}.

Record gen : Type := Gen {
  gen_script : Z * Z → list nat * list nat;
  fitness : option Q;
}.

Definition fired (steps : list nat) (c : nat) : Q :=
  if bool_decide (c ∈ steps) then 1.0%Q else 0.0%Q.

Definition potential (i : Z) (c : nat) : Q :=
  (inject_Z (Z.of_nat c) * 0.5 - 65 - inject_Z i)%Q.

#[export] Instance lib : Iznn := {|
  genome := gen;
  params := unit;
  network := net;
  FAST_SPIKING_PARAMS := tt;
  create_phenotype g _ := Net (gen_script g) (0, 0)%Z 0;
  neurons n :=
    {[ 0%Z := potential 0 (clock n); 1%Z := potential 1 (clock n);
       2%Z := potential 2 (clock n) ]};
  outputs _ := [0%Z; 1%Z];
  reset n := Net (script n) (inputs n) 0;
  set_inputs x n := Net (script n) x (clock n);
  advance _ n :=
    (Net (script n) (inputs n) (S (clock n)),
     [fired (script n (inputs n)).1 (clock n);
      fired (script n (inputs n)).2 (clock n)]);
  set_fitness f g := Gen (gen_script g) (Some f);
|}.

(** No output ever fires. *)
Definition silent : gen := Gen (λ _, ([], [])) None.

(** Output 0 fires at steps 3 and 7 and output 1 at step 12 on every row but
    (1, 1), where only output 0 fires. *)
Definition late : gen :=
  Gen (λ x, if decide (x = (1, 1)%Z) then ([5], []) else ([3; 7], [12]))%nat
      None.

(** Output 1 fires at the very first step of the second row. *)
Definition early : gen :=
  Gen (λ x, if decide (x = (0, 1)%Z) then ([4], [0]) else ([3], [3]))%nat
      None.




(** A genome that solves the task: the two outputs fire half a millisecond
    apart on the rows that expect 1 and fourteen milliseconds apart on the
    rows that expect 0. *)
Definition solver : gen :=
  Gen (λ x, if decide (x = (0, 1)%Z ∨ x = (1, 0)%Z)
            then ([3], [5]) else ([3], [59]))%nat
      None.

(** The scripted network that grows a fourth neuron at its second step. *)
#[export] Instance lib_sprouting : Iznn := {|
  genome := gen;
  params := unit;
  network := net;
  FAST_SPIKING_PARAMS := tt;
  create_phenotype := create_phenotype (Iznn := lib);
  neurons n :=
    if (clock n <? 2)%nat then neurons (Iznn := lib) n
    else <[ 3%Z := potential 3 (clock n) ]> (neurons (Iznn := lib) n);
  outputs := outputs (Iznn := lib);
  reset := reset (Iznn := lib);
  set_inputs := set_inputs (Iznn := lib);
  advance := advance (Iznn := lib);
  set_fitness := set_fitness (Iznn := lib);
|}.

(** The scripted network with a single output node. *)
#[export] Instance lib_single : Iznn := {|
  genome := gen;
  params := unit;
  network := net;
  FAST_SPIKING_PARAMS := tt;
  create_phenotype := create_phenotype (Iznn := lib);
  neurons := neurons (Iznn := lib);
  outputs _ := [0%Z];
  reset := reset (Iznn := lib);
  set_inputs := set_inputs (Iznn := lib);
  advance d n := ((advance (Iznn := lib) d n).1,
                  take 1 (advance (Iznn := lib) d n).2);
  set_fitness := set_fitness (Iznn := lib);
|}.

(** [neat.iznn.create_phenotype(genome, **neuron_params)] on the scripted
    network. *)
Definition phenotype (g : gen) : net :=
  create_phenotype (Iznn := lib) g neuron_params.

End Scripted.

(** * Properties of the decoder *)

Section Decoder.
Local Open Scope Q_scope.

Lemma Qltb_true (x y : Q) : Qltb x y = true ↔ x < y.
Proof.
  unfold Qltb. rewrite Qlt_alt. destruct (x ?= y); split; congruence.
Qed.

Lemma Qltb_false (x y : Q) : Qltb x y = false ↔ y <= x.
Proof.
  rewrite <- not_true_iff_false, Qltb_true. split.
  - apply Qnot_lt_le.
  - apply Qle_not_lt.
Qed.



(** On two recorded times the decoder has three regimes, told apart by the
    distance [d = |a - b|]: the plateau up to one millisecond, the linear
    ramp, and zero from eleven milliseconds on. *)
Lemma compute_output_high (a b : Q) :
  Qabs (a - b) <= 1.0 → compute_output (Some a) (Some b) = 1.0.
Proof.
  intros Hd. unfold compute_output; cbv zeta.
  assert (Hm : py_min 1.0 (1.1 - 0.1 * Qabs (a - b)) = 1.0).
  { unfold py_min. destruct (Qltb _ _) eqn:E; [|done].
    apply Qltb_true in E. lra. }
  rewrite Hm. reflexivity.
Qed.

Lemma compute_output_ramp (a b : Q) :
  1.0 < Qabs (a - b) → Qabs (a - b) < 11.0 →
  compute_output (Some a) (Some b) = 1.1 - 0.1 * Qabs (a - b).
Proof.
  intros Hlo Hhi. unfold compute_output; cbv zeta.
  assert (Hm : py_min 1.0 (1.1 - 0.1 * Qabs (a - b)) = 1.1 - 0.1 * Qabs (a - b)).
  { unfold py_min. destruct (Qltb _ _) eqn:E; [done|].
    apply Qltb_false in E. lra. }
  rewrite Hm. unfold py_max. destruct (Qltb _ _) eqn:E; [done|].
  apply Qltb_false in E. lra.
Qed.

Lemma compute_output_low (a b : Q) :
  11.0 <= Qabs (a - b) → compute_output (Some a) (Some b) = 0.0.
Proof.
  intros Hd. unfold compute_output; cbv zeta.
  assert (Hm : py_min 1.0 (1.1 - 0.1 * Qabs (a - b)) = 1.1 - 0.1 * Qabs (a - b)).
  { unfold py_min. destruct (Qltb _ _) eqn:E; [done|].
    apply Qltb_false in E. lra. }
  rewrite Hm. unfold py_max. destruct (Qltb _ _) eqn:E; [|done].
  apply Qltb_true in E. lra.
Qed.


(** Case analysis on the regime of a pair of times. *)
Lemma compute_output_regimes (a b : Q) :
  (Qabs (a - b) <= 1.0 ∧ compute_output (Some a) (Some b) = 1.0)
  ∨ (1.0 < Qabs (a - b) < 11.0
     ∧ compute_output (Some a) (Some b) = 1.1 - 0.1 * Qabs (a - b))
  ∨ (11.0 <= Qabs (a - b) ∧ compute_output (Some a) (Some b) = 0.0).
Proof.
  destruct (Qlt_le_dec 1.0 (Qabs (a - b))) as [Hlo|Hlo].
  - destruct (Qlt_le_dec (Qabs (a - b)) 11.0) as [Hhi|Hhi].
    + right; left. split; [done|]. by apply compute_output_ramp.
    + right; right. split; [done|]. by apply compute_output_low.
  - left. split; [done|]. by apply compute_output_high.
Qed.



Lemma compute_output_None (t0 t1 : option Q) :
  t0 = None ∨ t1 = None → compute_output t0 t1 = -1.0.
Proof.
  intros [-> | ->]; [done|]. by destruct t0.
Qed.

(** C5: on recorded times the decoder does not increase when the distance
    between the two times grows, and its value lies between 0 and 1. *)
Theorem compute_output_monotone (t0 t1 t0' t1' : Q) :
  (Qabs (t0 - t1) <= Qabs (t0' - t1') →
   compute_output (Some t0') (Some t1') <= compute_output (Some t0) (Some t1))
  ∧ 0.0 <= compute_output (Some t0) (Some t1) <= 1.0.
Proof.
  pose proof (compute_output_regimes t0 t1) as H.
  pose proof (compute_output_regimes t0' t1') as H'.
  split.
  - intros Hd.
    destruct H as [[? ->]|[[? ->]|[? ->]]], H' as [[? ->]|[[? ->]|[? ->]]]; lra.
  - destruct H as [[? ->]|[[? ->]|[? ->]]]; lra.
Qed.

Lemma compute_output_monotone_witness :
  compute_output (Some 9.0) (Some 1.5) <= compute_output (Some 2.0) (Some 4.25).
Proof.
  destruct (compute_output_monotone 2.0 4.25 9.0 1.5) as [Hmono _].
  apply Hmono. vm_compute. discriminate.
Defined.

(** C9: the maximal response 1.0 is returned on the whole plateau of times at
    most one millisecond apart, not only on equal times. *)
Theorem compute_output_plateau (t0 t1 : Q) :
  Qabs (t0 - t1) <= 1.0 → compute_output (Some t0) (Some t1) = 1.0.
Proof. apply compute_output_high. Qed.

Lemma compute_output_plateau_witness :
  compute_output (Some 6.25) (Some 7.25) = 1.0
  ∧ compute_output (Some 6.25) (Some 5.5) = 1.0.
Proof.
  split.
  - apply (compute_output_plateau 6.25 7.25). vm_compute. discriminate.
  - apply (compute_output_plateau 6.25 5.5). vm_compute. discriminate.
Defined.

End Decoder.

(** * The loop combinator *)

Section ForEach.
Context {J St : Type} (body : J → St → result St).

Lemma for_each_app (l1 l2 : list J) (s : St) :
  for_each body (l1 ++ l2) s = for_each body l1 s ≫= for_each body l2.
Proof.
  revert s. induction l1 as [|j l1 IH]; intros s; [done|].
  cbn. destruct (body j s) as [s'|e]; [apply IH|done].
Qed.

Lemma for_each_snoc (l : list J) (j : J) (s : St) :
  for_each body (l ++ [j]) s = for_each body l s ≫= body j.
Proof.
  rewrite for_each_app. destruct (for_each body l s) as [s'|e]; [|done].
  cbn. by destruct (body j s').
Qed.

Lemma for_each_app_Ok (l1 l2 : list J) (s s' : St) :
  for_each body (l1 ++ l2) s = Ok s' →
  ∃ s1, for_each body l1 s = Ok s1 ∧ for_each body l2 s1 = Ok s'.
Proof.
  rewrite for_each_app. destruct (for_each body l1 s) as [s1|e]; [|done].
  intros H. by exists s1.
Qed.

(** A loop that raises was aborted in one of its iterations, after the
    iterations before it had completed. *)
Lemma for_each_Raise (l : list J) (s : St) (e : exn) :
  for_each body l s = Raise e →
  ∃ n j s1, l !! n = Some j ∧ for_each body (take n l) s = Ok s1
            ∧ body j s1 = Raise e.
Proof.
  revert s. induction l as [|j l IH]; intros s; [done|].
  cbn. destruct (body j s) as [s'|e'] eqn:Hb.
  - intros H. destruct (IH _ H) as (n & j' & s1 & Hn & Hpre & Hj).
    exists (S n), j', s1. cbn. by rewrite Hb.
  - intros [= ->]. by exists 0%nat, j, s.
Qed.

(** An invariant of the body that holds at the start holds at the end. *)
Lemma for_each_invariant (P : St → Prop) (l : list J) (s s' : St) :
  (∀ j s1 s2, P s1 → body j s1 = Ok s2 → P s2) →
  P s → for_each body l s = Ok s' → P s'.
Proof.
  intros Hstep. revert s. induction l as [|j l IH]; intros s Hs; cbn.
  - by intros [= <-].
  - destruct (body j s) as [s1|e] eqn:Hb; [|done]. eauto.
Qed.

End ForEach.

(** * Python containers *)

Section Containers.
Context {A : Type}.

Lemma py_index_penultimate (l : list A) (a b : A) :
  py_index (l ++ [a; b]) (-2) = Ok a.
Proof.
  unfold py_index. rewrite length_app. cbn [length].
  replace (-2 <? 0)%Z with true by done.
  replace (Z.of_nat (length l + 2) + -2)%Z with (Z.of_nat (length l)) by lia.
  rewrite (proj2 (Z.leb_le _ _)), (proj2 (Z.ltb_lt _ _)) by lia.
  rewrite Nat2Z.id. cbn. by rewrite list_lookup_middle.
Qed.

Lemma py_index_penultimate_short (l : list A) :
  (length l < 2)%nat → py_index l (-2) = Raise IndexError.
Proof.
  intros Hl. unfold py_index.
  replace (-2 <? 0)%Z with true by done.
  rewrite (proj2 (Z.leb_gt _ _)); [done|lia].
Qed.

Lemma py_index_in_range (l : list A) (k : nat) (a : A) :
  l !! k = Some a → py_index l (Z.of_nat k) = Ok a.
Proof.
  intros Hk. pose proof (lookup_lt_Some _ _ _ Hk) as Hlt. unfold py_index.
  rewrite (proj2 (Z.ltb_ge _ _)) by lia.
  rewrite (proj2 (Z.leb_le _ _)), (proj2 (Z.ltb_lt _ _)) by lia.
  by rewrite Nat2Z.id, Hk.
Qed.

Lemma py_index_Ok_nonneg (l : list A) (k : Z) (a : A) :
  (0 ≤ k)%Z → py_index l k = Ok a → l !! Z.to_nat k = Some a.
Proof.
  intros Hk. unfold py_index. rewrite (proj2 (Z.ltb_ge _ _)) by lia.
  destruct (_ && _); [|done]. by destruct (l !! Z.to_nat k); intros [= <-].
Qed.

Lemma py_index_Ok_iff (l : list A) (k : nat) (a : A) :
  py_index l (Z.of_nat k) = Ok a ↔ l !! k = Some a.
Proof.
  split; [|apply py_index_in_range].
  intros H. apply py_index_Ok_nonneg in H; [|lia]. by rewrite Nat2Z.id in H.
Qed.

Lemma py_index_lt (l : list A) (k : nat) :
  (k < length l)%nat → ∃ a, py_index l (Z.of_nat k) = Ok a ∧ l !! k = Some a.
Proof.
  intros Hk. destruct (lookup_lt_is_Some_2 l k Hk) as [a Ha].
  exists a. split; [by apply py_index_in_range|done].
Qed.

Lemma py_index_penultimate_Ok (l : list A) :
  (2 ≤ length l)%nat → ∃ a, py_index l (-2) = Ok a.
Proof.
  intros Hl. unfold py_index.
  replace (-2 <? 0)%Z with true by done.
  rewrite (proj2 (Z.leb_le _ _)), (proj2 (Z.ltb_lt _ _)) by lia. cbn.
  destruct (lookup_lt_is_Some_2 l (Z.to_nat (Z.of_nat (length l) + -2)))
    as [a ->]; [lia|]. by exists a.
Qed.

End Containers.

(** * The step loop *)

Section StepLoop.
Context `{lib : Iznn}.

Lemma append_samples_Ok (t : Q) (ns : gmap Z Q) (nd : traces) :
  dom ns ⊆ dom nd →
  ∃ nd', append_samples t ns nd = Ok nd'.
Proof. intros H. unfold append_samples. rewrite decide_True by done. eauto. Qed.

Lemma append_samples_Raise (t : Q) (ns : gmap Z Q) (nd : traces) :
  ¬ dom ns ⊆ dom nd → append_samples t ns nd = Raise KeyError.
Proof. intros H. unfold append_samples. by rewrite decide_False. Qed.

Lemma append_samples_lookup (t : Q) (ns : gmap Z Q) (nd nd' : traces) (i : Z) :
  append_samples t ns nd = Ok nd' →
  nd' !! i
  = (λ l, l ++ match ns !! i with Some v => [(t, v)] | None => [] end)
      <$> nd !! i.
Proof.
  unfold append_samples. case_decide; [|done]. intros [= <-].
  rewrite map_lookup_imap. destruct (nd !! i) as [l|]; [|done].
  cbn. destruct (ns !! i); [done|]. by rewrite app_nil_r.
Qed.

Lemma capture_set (k : Z) (t vk : option Q) (output : list Q)
    (outs : list Z) (nd : traces) (x : Q) :
  capture k (Some x) vk output outs nd = Ok (Some x, vk).
Proof. done. Qed.

Lemma capture_quiet (k : Z) (vk : option Q) (output : list Q)
    (outs : list Z) (nd : traces) (r : option Q * option Q) :
  fires k output = false →
  capture k None vk output outs nd = Ok r → r = (None, vk).
Proof.
  unfold fires, capture. destruct (py_index output k) as [o|e]; [|done].
  cbn. intros ->. by intros [= <-].
Qed.

Lemma capture_fired (k : Z) (vk : option Q) (output : list Q)
    (outs : list Z) (nd : traces) (r : option Q * option Q) :
  fires k output = true →
  capture k None vk output outs nd = Ok r →
  ∃ i l t v, py_index outs k = Ok i ∧ nd !! i = Some l
             ∧ py_index l (-2) = Ok (t, v) ∧ r = (Some t, Some v).
Proof.
  unfold fires, capture. destruct (py_index output k) as [o|e]; [|done].
  cbn. intros ->. destruct (py_index outs k) as [i|e]; [|done]. cbn.
  unfold py_getitem. destruct (nd !! i) as [l|] eqn:Hi; [|done]. cbn.
  destruct (py_index l (-2)) as [[t v]|e] eqn:Hl; [|done]. cbn.
  intros [= <-]. by exists i, l, t, v.
Qed.

(** What a completed iteration did, slot by slot. *)
Lemma step_Ok (j : nat) (st st' : loop_state) :
  step j st = Ok st' →
  let net := (advance dt (st_net st)).1 in
  let output := (advance dt (st_net st)).2 in
  st_net st' = net
  ∧ append_samples (dt * inject_Z (Z.of_nat j))%Q (neurons net) (st_data st)
    = Ok (st_data st')
  ∧ ∀ k, k = 0%Z ∨ k = 1%Z →
      capture k (st_t k st) (st_v k st) output (outputs net) (st_data st')
      = Ok (st_t k st', st_v k st').
Proof.
  unfold step. destruct (advance dt (st_net st)) as [net output]. cbn.
  destruct (append_samples _ _ _) as [nd|e]; [|done]. cbn.
  destruct (capture 0 _ _ _ _ _) as [[t0 v0]|e] eqn:H0; [|done]. cbn.
  destruct (capture 1 _ _ _ _ _) as [[t1 v1]|e] eqn:H1; [|done]. cbn.
  intros [= <-]. cbn. split; [done|]. split; [done|].
  by intros k [-> | ->].
Qed.

Lemma advance_n_S (k : nat) (net : network) :
  advance_n (S k) net = advance_n k (advance dt net).1.
Proof. unfold advance_n. by rewrite Nat.iter_succ_r. Qed.

Lemma output_at_S (net : network) (j : nat) :
  output_at net (S j) = output_at (advance dt net).1 j.
Proof. unfold output_at. by rewrite advance_n_S. Qed.

Lemma sample_at_S (net : network) (j : nat) (i : Z) :
  sample_at net (S j) i = sample_at (advance dt net).1 j i.
Proof. unfold sample_at. by rewrite !advance_n_S. Qed.

(** The samples of [m + 1] steps are those of [m] steps and the sample of
    the last step. *)
Lemma samples_snoc (net : network) (j m : nat) (i : Z) :
  samples net j (S m) i
  = samples net j m i
    ++ match sample_at net m i with
       | Some v => [((dt * inject_Z (Z.of_nat (j + m)))%Q, v)]
       | None => []
       end.
Proof.
  revert net j. induction m as [|m IH]; intros net j.
  - cbn. rewrite Nat.add_0_r, app_nil_r. done.
  - change (samples net j (S (S m)) i)
      with (match neurons (advance dt net).1 !! i with
            | Some v => [((dt * inject_Z (Z.of_nat j))%Q, v)]
            | None => []
            end ++ samples (advance dt net).1 (S j) (S m) i).
    rewrite IH, sample_at_S. cbn [samples].
    replace (S j + m)%nat with (j + S m)%nat by lia.
    by rewrite app_assoc.
Qed.

Lemma samples_length (net : network) (j m : nat) (i : Z) :
  (length (samples net j m i) ≤ m)%nat.
Proof.
  revert net j. induction m as [|m IH]; intros net j; [done|].
  cbn [samples]. rewrite length_app. specialize (IH (advance dt net).1 (S j)).
  destruct (neurons _ !! i); cbn; lia.
Qed.

(** A neuron that is read at every step has one sample per step, the sample
    of step [n] at time [dt * n]. *)
Lemma samples_lookup (net : network) (m : nat) (i : Z) :
  (∀ n, (n < m)%nat → is_Some (sample_at net n i)) →
  length (samples net 0 m i) = m
  ∧ ∀ n, (n < m)%nat →
      ∃ v, sample_at net n i = Some v
           ∧ samples net 0 m i !! n
             = Some ((dt * inject_Z (Z.of_nat n))%Q, v).
Proof.
  induction m as [|m IH]; intros Hall; [split; [done|lia]|].
  destruct IH as [Hlen Hlook]; [intros n Hn; apply Hall; lia|].
  rewrite samples_snoc. destruct (Hall m) as [v Hv]; [lia|]. rewrite Hv.
  split; [rewrite length_app; cbn; lia|].
  intros n Hn. destruct (decide (n = m)) as [->|Hne].
  - exists v. split; [done|].
    rewrite lookup_app_r by lia. by rewrite Hlen, Nat.sub_diag.
  - destruct (Hlook n) as (w & Hw & Hn'); [lia|]. exists w. split; [done|].
    rewrite lookup_app_l by lia. done.
Qed.

(** A completed run of [m] iterations has called [advance] [m] times. *)
Lemma run_net (j m : nat) (s s' : loop_state) :
  for_each step (seq j m) s = Ok s' → st_net s' = advance_n m (st_net s).
Proof.
  revert j s. induction m as [|m IH]; intros j s.
  - cbn. by intros [= <-].
  - rewrite advance_n_S. cbn [seq for_each].
    destruct (step j s) as [s1|e] eqn:Hs; [|done]. intros Hrun.
    apply IH in Hrun. apply step_Ok in Hs as (Hnet & _).
    by rewrite Hrun, Hnet.
Qed.

(** A completed run of [m] iterations has appended the samples of its steps
    to every trace, and has created no trace. *)
Lemma run_data (j m : nat) (s s' : loop_state) (i : Z) :
  for_each step (seq j m) s = Ok s' →
  st_data s' !! i = (λ l, l ++ samples (st_net s) j m i) <$> st_data s !! i.
Proof.
  revert j s. induction m as [|m IH]; intros j s; cbn [seq for_each].
  - intros [= <-]. cbn. destruct (st_data s !! i) as [l|]; [|done].
    cbn. by rewrite app_nil_r.
  - destruct (step j s) as [s1|e] eqn:Hs; [|done]. cbn [mbind result_bind].
    intros Hrun. apply (IH _ _) in Hrun.
    apply step_Ok in Hs as (Hnet & Hdata & _).
    rewrite Hrun, (append_samples_lookup _ _ _ _ i Hdata), Hnet.
    destruct (st_data s !! i) as [l|]; [|done]. cbn.
    by rewrite <- app_assoc.
Qed.

(** Once the time variable of a slot is set, no iteration changes the slot. *)
Lemma step_slot_kept (k : Z) (j : nat) (s s' : loop_state) (t : Q) :
  k = 0%Z ∨ k = 1%Z →
  st_t k s = Some t → step j s = Ok s' →
  st_t k s' = Some t ∧ st_v k s' = st_v k s.
Proof.
  intros Hk Ht Hs. apply step_Ok in Hs as (_ & _ & Hcap).
  specialize (Hcap k Hk). rewrite Ht in Hcap. cbn in Hcap.
  by injection Hcap as <- <-.
Qed.

Lemma run_slot_kept (k : Z) (js : list nat) (s s' : loop_state) (t : Q) :
  k = 0%Z ∨ k = 1%Z →
  st_t k s = Some t → for_each step js s = Ok s' →
  st_t k s' = Some t ∧ st_v k s' = st_v k s.
Proof.
  intros Hk Ht Hrun.
  apply (for_each_invariant step
           (λ s1, st_t k s1 = Some t ∧ st_v k s1 = st_v k s) js s s');
    [|done|done].
  intros j s1 s2 [Ht1 Hv1] Hs.
  destruct (step_slot_kept k j s1 s2 t Hk Ht1 Hs) as [? ?]. split; congruence.
Qed.

(** While no firing is detected on a slot, its variables stay as they are. *)
Lemma run_slot_quiet (k : Z) (j m : nat) (s s' : loop_state) :
  k = 0%Z ∨ k = 1%Z →
  st_t k s = None →
  (∀ n, (n < m)%nat → fires k (output_at (st_net s) n) = false) →
  for_each step (seq j m) s = Ok s' →
  st_t k s' = None ∧ st_v k s' = st_v k s.
Proof.
  intros Hk. revert j s. induction m as [|m IH]; intros j s Ht Hq; cbn.
  - by intros [= <-].
  - destruct (step j s) as [s1|e] eqn:Hs; [|done]. cbn. intros Hrun.
    apply step_Ok in Hs as (Hnet & _ & Hcap). specialize (Hcap k Hk).
    rewrite Ht in Hcap. apply capture_quiet in Hcap; [|apply (Hq 0%nat); lia].
    injection Hcap as Ht1 Hv1.
    apply IH in Hrun as [? ?]; [split; congruence|done|].
    intros n Hn. rewrite Hnet, <- output_at_S. apply Hq. lia.
Qed.

Lemma advance_n_last (k : nat) (net : network) :
  advance_n (S k) net = (advance dt (advance_n k net)).1.
Proof. done. Qed.

Lemma seq_split (j m : nat) :
  (j < m)%nat → seq 0 m = seq 0 j ++ [j] ++ seq (S j) (m - S j).
Proof.
  intros Hj. replace m with (j + (1 + (m - S j)))%nat at 1 by lia.
  rewrite seq_app. done.
Qed.

(** The iteration in which the first firing of a slot is detected, reached
    by a run that started with fresh traces: the variables of the slot get
    the second-to-last sample of the trace of the output neuron. *)
Lemma step_first_fire (k : Z) (j : nat) (s s1 s2 : loop_state) (o : Z) :
  k = 0%Z ∨ k = 1%Z →
  st_t k s = None →
  (∀ l, st_data s !! o = Some l → l = []) →
  (∀ n, (n < j)%nat → fires k (output_at (st_net s) n) = false) →
  fires k (output_at (st_net s) j) = true →
  py_index (outputs (advance_n (S j) (st_net s))) k = Ok o →
  for_each step (seq 0 j) s = Ok s1 →
  step j s1 = Ok s2 →
  ∃ t v, py_index (samples (st_net s) 0 (S j) o) (-2) = Ok (t, v)
         ∧ st_t k s2 = Some t ∧ st_v k s2 = Some v.
Proof.
  intros Hk Ht Hfresh Hquiet Hfire Hout Hpre Hstep.
  pose proof (run_net _ _ _ _ Hpre) as Hnet1.
  destruct (run_slot_quiet k 0 j s s1 Hk Ht Hquiet Hpre) as [Ht1 _].
  assert (Hrun2 : for_each step (seq 0 (S j)) s = Ok s2).
  { rewrite seq_S, for_each_snoc, Hpre. done. }
  pose proof (run_data 0 (S j) s s2 o Hrun2) as Hdata.
  apply step_Ok in Hstep as (_ & _ & Hcap). specialize (Hcap k Hk).
  rewrite Ht1, Hnet1 in Hcap. rewrite <- advance_n_last in Hcap.
  apply capture_fired in Hcap as (i & l & t & v & Hi & Hl & Hpen & Heq);
    [|exact Hfire].
  rewrite Hout in Hi. injection Hi as <-.
  rewrite Hl in Hdata. destruct (st_data s !! o) as [l0|] eqn:Hl0; [|done].
  rewrite (Hfresh l0 eq_refl) in Hdata. injection Hdata as ->.
  injection Heq as -> ->. by exists t, v.
Qed.

(** The second-to-last sample after step [j] is the sample of step [j - 1];
    there is none after step 0. *)
Lemma samples_penultimate (net : network) (j : nat) (o : Z) (t v : Q) :
  is_Some (sample_at net (pred j) o) → is_Some (sample_at net j o) →
  py_index (samples net 0 (S j) o) (-2) = Ok (t, v) →
  ∃ j', j = S j' ∧ t = (dt * inject_Z (Z.of_nat j'))%Q
        ∧ sample_at net j' o = Some v.
Proof.
  intros Hprev Hlast Hpen. destruct j as [|j'].
  - rewrite py_index_penultimate_short in Hpen; [done|].
    pose proof (samples_length net 0 1 o). lia.
  - exists j'. rewrite !samples_snoc in Hpen.
    destruct Hprev as [v1 Hv1], Hlast as [v2 Hv2]. cbn [pred] in Hv1.
    rewrite Hv1, Hv2, <- app_assoc in Hpen. cbn [app] in Hpen.
    rewrite py_index_penultimate in Hpen. by injection Hpen as <- <-.
Qed.

Lemma init_data_fresh (ns : gmap Z Q) (i : Z) (l : list (Q * Q)) :
  init_data ns !! i = Some l → l = [].
Proof.
  unfold init_data. rewrite lookup_fmap.
  destruct (ns !! i); cbn; congruence.
Qed.

Lemma init_data_lookup (ns : gmap Z Q) (i : Z) :
  init_data ns !! i = (λ _, []) <$> ns !! i.
Proof. apply lookup_fmap. Qed.

(** A firing detected on a slot whose output neuron has fewer than two
    samples: the look-back raises [IndexError]. *)
Lemma capture_short (k : Z) (vk : option Q) (output : list Q)
    (outs : list Z) (nd : traces) :
  fires k output = true →
  (∀ o, py_index outs k = Ok o →
        ∃ l, nd !! o = Some l ∧ (length l < 2)%nat) →
  capture k None vk output outs nd = Raise IndexError.
Proof.
  unfold fires, capture. destruct (py_index output k) as [o|e]; [|done].
  cbn. intros -> Hshort.
  destruct (py_index outs k) as [i|[]] eqn:Hi; cbn; [|done|].
  - destruct (Hshort i eq_refl) as (l & Hl & Hlen).
    unfold py_getitem. rewrite Hl. cbn.
    by rewrite py_index_penultimate_short.
  - unfold py_index in Hi. destruct (_ && _); [|done].
    by destruct (outs !! _).
Qed.

(** A list with an element at index 1 has one at index 0. *)
Lemma fires_1_index_0 (output : list Q) :
  fires 1 output = true → ∃ o, py_index output 0 = Ok o.
Proof.
  unfold fires. destruct (py_index output 1) as [o1|e] eqn:H1; [|done].
  intros _. apply (py_index_Ok_iff output 1) in H1.
  destruct output as [|o output]; [done|]. by exists o.
Qed.

(** The first iteration of a trial on a network that keeps its neurons, when
    a firing is detected in it: every trace has one sample and the look-back
    raises [IndexError]. *)
Lemma step_0_raises (net : network) (x : Z * Z) :
  dom (neurons (advance dt (set_inputs x (reset net))).1) = dom (neurons net) →
  (∀ k o, outputs (advance dt (set_inputs x (reset net))).1 !! k = Some o →
          o ∈ dom (neurons net)) →
  fires 0 (output_at (set_inputs x (reset net)) 0) = true
  ∨ fires 1 (output_at (set_inputs x (reset net)) 0) = true →
  (∃ nd, append_samples (dt * inject_Z (Z.of_nat 0))%Q
           (neurons (advance dt (set_inputs x (reset net))).1)
           (init_data (neurons net)) = Ok nd
         ∧ ∀ i l, nd !! i = Some l → length l = 1%nat)
  ∧ step 0 (trial_start net x) = Raise IndexError.
Proof.
  intros Hdom Houts Hfire. unfold output_at in Hfire. cbn in Hfire.
  destruct (append_samples_Ok (dt * inject_Z (Z.of_nat 0))%Q
              (neurons (advance dt (set_inputs x (reset net))).1)
              (init_data (neurons net))) as [nd Hnd].
  { unfold init_data. rewrite dom_fmap_L, Hdom. done. }
  assert (Hone : ∀ i l, nd !! i = Some l → length l = 1%nat).
  { intros i l. rewrite (append_samples_lookup _ _ _ _ i Hnd).
    rewrite init_data_lookup.
    destruct (neurons net !! i) as [v|] eqn:Hv; [|done]. cbn.
    assert (is_Some (neurons (advance dt (set_inputs x (reset net))).1 !! i))
      as [w ->] by (apply elem_of_dom; rewrite Hdom; by apply elem_of_dom).
    by intros [= <-]. }
  split; [by exists nd|].
  assert (Hshort : ∀ k, (0 ≤ k)%Z → ∀ o,
            py_index (outputs (advance dt (set_inputs x (reset net))).1) k
            = Ok o → ∃ l, nd !! o = Some l ∧ (length l < 2)%nat).
  { intros k Hk o Ho. apply py_index_Ok_nonneg in Ho; [|done].
    apply Houts in Ho. apply elem_of_dom in Ho.
    assert (is_Some (nd !! o)) as [l Hl].
    { rewrite (append_samples_lookup _ _ _ _ o Hnd), init_data_lookup.
      destruct Ho as [v ->]. by eexists. }
    exists l. split; [done|]. rewrite (Hone o l Hl). lia. }
  unfold step. cbn [trial_start st_net st_data st_t0 st_v0 st_t1 st_v1].
  destruct (advance dt (set_inputs x (reset net))) as [net1 output] eqn:Hadv.
  cbn [fst snd] in *. rewrite Hnd. cbn [mbind result_bind].
  destruct (fires 0 output) eqn:H0.
  - by rewrite (capture_short 0 None output (outputs net1) nd H0 (Hshort 0%Z ltac:(lia))).
  - destruct Hfire as [?|H1]; [done|].
    destruct (fires_1_index_0 output H1) as [o0 Ho0].
    assert (capture 0 None None output (outputs net1) nd = Ok (None, None))
      as ->.
    { unfold capture. unfold fires in H0. rewrite Ho0 in *. cbn. by rewrite H0. }
    cbn [mbind result_bind].
    by rewrite (capture_short 1 None output (outputs net1) nd H1 (Hshort 1%Z ltac:(lia))).
Qed.

(** ** Progress on a steady network *)

Lemma append_samples_traced (D : gset Z) (j : nat) (t : Q) (ns : gmap Z Q)
    (nd : traces) :
  dom ns = D → traced D j nd →
  ∃ nd', append_samples t ns nd = Ok nd' ∧ traced D (S j) nd'.
Proof.
  intros Hdom Htr.
  destruct (append_samples_Ok t ns nd) as [nd' Hnd'].
  { intros i Hi. rewrite Hdom in Hi. apply elem_of_dom.
    destruct (proj1 (Htr i) Hi) as (l & -> & _). by eexists. }
  exists nd'. split; [done|]. intros i.
  rewrite (append_samples_lookup _ _ _ _ i Hnd'). split.
  - intros Hi. destruct (proj1 (Htr i) Hi) as (l & -> & Hlen).
    assert (is_Some (ns !! i)) as [v ->]
      by (apply elem_of_dom; by rewrite Hdom).
    eexists. split; [done|]. rewrite length_app. cbn. lia.
  - intros Hsome. apply (proj2 (Htr i)).
    destruct (nd !! i); [by eexists|by destruct Hsome].
Qed.

Lemma capture_total (D : gset Z) (j k : nat) (tk vk : option Q)
    (output : list Q) (outs : list Z) (nd : traces) :
  (k < length output)%nat →
  (∃ o, outs !! k = Some o ∧ o ∈ D) →
  traced D (S j) nd →
  (j = 0%nat → fires (Z.of_nat k) output = false) →
  ∃ r, capture (Z.of_nat k) tk vk output outs nd = Ok r.
Proof.
  intros Hlen (o & Ho & HoD) Htr Hquiet. unfold capture.
  destruct tk as [t|]; [by eexists|].
  destruct (py_index_lt output k Hlen) as (x & Hx & _).
  unfold fires in Hquiet. rewrite Hx in *. cbn.
  destruct (Qltb 0 x) eqn:Hfire; [|by eexists].
  rewrite (py_index_in_range outs k o Ho). cbn.
  destruct (proj1 (Htr o) HoD) as (l & Hl & Hll).
  unfold py_getitem. rewrite Hl. cbn.
  destruct (py_index_penultimate_Ok l) as [[t v] ->]; [|by eexists].
  destruct j; [by specialize (Hquiet eq_refl)|lia].
Qed.

(** An iteration on a steady network completes, unless it is iteration 0
    and a firing is detected in it. *)
Lemma step_progress (D : gset Z) (j : nat) (s : loop_state) :
  steady (st_net s) D 1 →
  traced D j (st_data s) →
  (j = 0%nat → fires 0 (output_at (st_net s) 0) = false
               ∧ fires 1 (output_at (st_net s) 0) = false) →
  ∃ s', step j s = Ok s' ∧ traced D (S j) (st_data s').
Proof.
  intros Hsteady Htr Hquiet.
  destruct (Hsteady 0%nat) as (Hdom & Hlen & Houts); [lia|].
  unfold output_at in *. cbn in Hdom, Hlen, Houts, Hquiet.
  unfold step. destruct (advance dt (st_net s)) as [net output].
  cbn [fst snd] in *.
  destruct (append_samples_traced D j (dt * inject_Z (Z.of_nat j))%Q
              (neurons net) (st_data s) Hdom Htr) as (nd & -> & Hnd).
  cbn [mbind result_bind].
  destruct (capture_total D j 0 (st_t0 s) (st_v0 s) output (outputs net) nd)
    as [[t0 v0] H0]; [lia|apply Houts; lia|done|intros ?; by apply Hquiet|].
  change (Z.of_nat 0) with 0%Z in H0. rewrite H0. cbn [mbind result_bind].
  destruct (capture_total D j 1 (st_t1 s) (st_v1 s) output (outputs net) nd)
    as [[t1 v1] H1]; [lia|apply Houts; lia|done|intros ?; by apply Hquiet|].
  change (Z.of_nat 1) with 1%Z in H1. rewrite H1. cbn [mbind result_bind].
  by eexists.
Qed.

Lemma steady_S (net : network) (D : gset Z) (m : nat) :
  steady net D (S m) → steady net D 1 ∧ steady (advance dt net).1 D m.
Proof.
  intros H. split.
  - intros n Hn. apply H. lia.
  - intros n Hn. specialize (H (S n) ltac:(lia)).
    by rewrite output_at_S, (advance_n_S (S n)) in H.
Qed.

Lemma run_progress (D : gset Z) (j m : nat) (s : loop_state) :
  steady (st_net s) D m →
  traced D j (st_data s) →
  (j = 0%nat → (0 < m)%nat →
     fires 0 (output_at (st_net s) 0) = false
     ∧ fires 1 (output_at (st_net s) 0) = false) →
  ∃ s', for_each step (seq j m) s = Ok s'.
Proof.
  revert j s. induction m as [|m IH]; intros j s Hsteady Htr Hquiet.
  - by eexists.
  - apply steady_S in Hsteady as [H1 Hm].
    destruct (step_progress D j s H1 Htr) as (s1 & Hs1 & Htr1).
    { intros Hj. apply Hquiet; [done|lia]. }
    cbn [seq for_each]. rewrite Hs1. cbn [mbind result_bind].
    apply (IH (S j) s1); [|done|done].
    apply step_Ok in Hs1 as (-> & _). done.
Qed.

Lemma init_data_traced (ns : gmap Z Q) : traced (dom ns) 0 (init_data ns).
Proof.
  intros i. rewrite init_data_lookup. split.
  - intros [v ->]%elem_of_dom. by eexists.
  - intros Hsome. apply elem_of_dom. destruct (ns !! i); [done|].
    by destruct Hsome.
Qed.

(** The step loop of a trial on a steady network completes when no firing
    is detected in its first iteration. *)
Lemma run_steps_completes (net : network) (x : Z * Z) :
  steady (set_inputs x (reset net)) (dom (neurons net)) num_steps →
  fires 0 (output_at (set_inputs x (reset net)) 0) = false →
  fires 1 (output_at (set_inputs x (reset net)) 0) = false →
  ∃ st, run_steps net x = Ok st.
Proof.
  intros Hsteady H0 H1. unfold run_steps.
  apply (run_progress (dom (neurons net))); [done| |done].
  apply init_data_traced.
Qed.

End StepLoop.

(** * The trials *)

Section Trials.
Context `{lib : Iznn}.

(** C4: in a trial, the time and potential recorded for an output neuron are
    the sample of the step before the one in which its firing is first
    detected: when the first detection on slot [k] is at step [j], that step
    is not step 0, the recorded time is [dt * (j - 1)] and the recorded
    potential is the one read at step [j - 1]. *)
Theorem first_spike_look_back (k : Z) (net : network) (x : Z * Z)
    (st : loop_state) (j : nat) (o : Z) :
  k = 0%Z ∨ k = 1%Z →
  run_steps net x = Ok st →
  (j < num_steps)%nat →
  (∀ n, (n < j)%nat → fires k (output_at (set_inputs x (reset net)) n) = false) →
  fires k (output_at (set_inputs x (reset net)) j) = true →
  outputs (advance_n (S j) (set_inputs x (reset net))) !! Z.to_nat k = Some o →
  is_Some (sample_at (set_inputs x (reset net)) (pred j) o) →
  is_Some (sample_at (set_inputs x (reset net)) j o) →
  ∃ j' v, j = S j'
          ∧ sample_at (set_inputs x (reset net)) j' o = Some v
          ∧ st_t k st = Some (dt * inject_Z (Z.of_nat j'))%Q
          ∧ st_v k st = Some v.
Proof.
  intros Hk Hrun Hj Hquiet Hfire Hout Hprev Hlast.
  unfold run_steps in Hrun. rewrite (seq_split j num_steps Hj) in Hrun.
  apply for_each_app_Ok in Hrun as (s1 & Hpre & Hrun).
  cbn [app for_each] in Hrun.
  destruct (step j s1) as [s2|e] eqn:Hstep; [|done].
  cbn [mbind result_bind] in Hrun.
  destruct (step_first_fire k j (trial_start net x) s1 s2 o)
    as (t & v & Hpen & Ht & Hv); try done.
  - unfold st_t. by case_decide.
  - intros l. apply init_data_fresh.
  - cbn. apply py_index_in_range in Hout.
    rewrite Z2Nat.id in Hout by (destruct Hk as [-> | ->]; lia). done.
  - apply samples_penultimate in Hpen as (j' & -> & -> & Hsample);
      [|done|done].
    exists j', v. split; [done|]. split; [done|].
    destruct (run_slot_kept k _ s2 st _ Hk Ht Hrun) as [Ht' Hv'].
    split; congruence.
Qed.

(** C2: when either first-spike time is missing the decoder returns exactly
    [-1.0], whatever the other time is; and the time of an output slot is
    missing at the end of a trial in which no firing was detected on the
    slot, so that the response of that trial is [-1.0]. *)
Theorem missing_spike_response :
  (∀ t0 t1 : option Q,
     t0 = None ∨ t1 = None → compute_output t0 t1 = (-1.0)%Q)
  ∧ ∀ (k : Z) (net : network) (x : Z * Z) (st : loop_state),
      k = 0%Z ∨ k = 1%Z →
      run_steps net x = Ok st →
      (∀ n, (n < num_steps)%nat →
            fires k (output_at (set_inputs x (reset net)) n) = false) →
      st_t k st = None
      ∧ compute_output (st_t0 st) (st_t1 st) = (-1.0)%Q.
Proof.
  split; [apply compute_output_None|].
  intros k net x st Hk Hrun Hquiet.
  destruct (run_slot_quiet k 0 num_steps (trial_start net x) st) as [Ht _];
    try done.
  { unfold st_t. by case_decide. }
  split; [done|]. apply compute_output_None.
  unfold st_t in Ht. case_decide; auto.
Qed.

(** C6: once the first spike of an output slot is recorded, no later
    iteration of the trial changes the recorded time and potential, whatever
    the network outputs in those iterations. *)
Theorem first_spike_kept (k : Z) (js : list nat) (s s' : loop_state) (t : Q) :
  k = 0%Z ∨ k = 1%Z →
  st_t k s = Some t →
  for_each step js s = Ok s' →
  st_t k s' = Some t ∧ st_v k s' = st_v k s.
Proof. apply run_slot_kept. Qed.

(** C7: the step loop of a trial has [num_steps = 200] iterations, the floor
    of [max_time / dt].  On a steady network on which no firing is detected
    at step 0 the loop completes; a loop that completes has called [advance]
    exactly [num_steps] times and has read every neuron at step [j] at time
    [dt * j]; a loop that raises is aborted in one of its [num_steps]
    iterations.  The loop is a structural recursion over [range(num_steps)]:
    it always ends. *)
Theorem step_count :
  num_steps = 200%nat
  ∧ Qfloor (max_time / dt) = Z.of_nat num_steps
  ∧ ∀ (net : network) (x : Z * Z),
      (steady (set_inputs x (reset net)) (dom (neurons net)) num_steps →
       fires 0 (output_at (set_inputs x (reset net)) 0) = false →
       fires 1 (output_at (set_inputs x (reset net)) 0) = false →
       is_Ok (run_steps net x) = true)
      ∧ match run_steps net x with
        | Ok st =>
            st_net st = advance_n num_steps (set_inputs x (reset net))
            ∧ ∀ i, i ∈ dom (neurons net) →
                (∀ n, (n < num_steps)%nat →
                      is_Some (sample_at (set_inputs x (reset net)) n i)) →
                ∃ l, st_data st !! i = Some l
                     ∧ length l = num_steps
                     ∧ ∀ n, (n < num_steps)%nat →
                         ∃ v, sample_at (set_inputs x (reset net)) n i = Some v
                              ∧ l !! n
                                = Some ((dt * inject_Z (Z.of_nat n))%Q, v)
        | Raise e =>
            ∃ j s, (j < num_steps)%nat
                   ∧ for_each step (seq 0 j) (trial_start net x) = Ok s
                   ∧ step j s = Raise e
        end.
Proof.
  split; [done|]. split; [done|]. intros net x. split.
  { intros Hsteady H0 H1.
    by destruct (run_steps_completes net x Hsteady H0 H1) as [st ->]. }
  destruct (run_steps net x) as [st|e] eqn:Hrun; unfold run_steps in Hrun.
  - split; [apply (run_net _ _ _ _ Hrun)|].
    intros i Hi Hall. apply elem_of_dom in Hi as [v0 Hv0].
    pose proof (run_data _ _ _ _ i Hrun) as Hdata. cbn in Hdata.
    rewrite init_data_lookup, Hv0 in Hdata. cbn in Hdata.
    destruct (samples_lookup _ _ i Hall) as [Hlen Hlook]. eauto.
  - apply for_each_Raise in Hrun as (n & j & s & Hn & Hpre & Hj).
    apply lookup_seq in Hn as [-> Hn]. exists n, s. split; [done|].
    rewrite take_seq, Nat.min_l in Hpre by lia. done.
Qed.

Lemma trial_unfold (x : Z * Z) (y : Z) (net : network) (sse : Q)
    (sim : list trial_record) :
  trial (x, y) (net, sse, sim)
  = st ← run_steps net x;
    Ok (st_net st,
        (sse + trial_error (TrialRecord x y (st_t0 st) (st_t1 st)
                              (st_v0 st) (st_v1 st) (st_data st)))%Q,
        sim ++ [TrialRecord x y (st_t0 st) (st_t1 st)
                  (st_v0 st) (st_v1 st) (st_data st)]).
Proof. done. Qed.

(** What the completed trials of some rows add to the accumulators: one
    record per row, in order, and the squared error of each record. *)
Lemma trials_Ok (rows : list (Z * Z * Z)) (net net' : network)
    (sse sse' : Q) (sim sim' : list trial_record) :
  for_each trial rows (net, sse, sim) = Ok (net', sse', sim') →
  ∃ recs, sim' = sim ++ recs
          ∧ sse' = fold_left (λ acc r, (acc + trial_error r)%Q) recs sse
          ∧ map (λ r, (tr_input r, tr_expected r)) recs = rows.
Proof.
  revert net sse sim. induction rows as [|[x y] rows IH]; intros net sse sim.
  - cbn. intros [= <- <- <-]. exists []. by rewrite app_nil_r.
  - cbn [for_each]. rewrite trial_unfold.
    destruct (run_steps net x) as [st|e]; cbn [mbind result_bind]; [|done].
    intros Hrest. apply IH in Hrest as (recs & -> & -> & <-).
    eexists (_ :: recs). rewrite <- app_assoc. done.
Qed.

Lemma simulate_Ok (g : genome) (sse : Q) (sim : list trial_record) :
  simulate g = Ok (sse, sim) →
  sse = fold_left (λ acc r, (acc + trial_error r)%Q) sim 0.0%Q
  ∧ map (λ r, (tr_input r, tr_expected r)) sim = zip xor_inputs xor_outputs.
Proof.
  unfold simulate.
  destruct (for_each trial _ _) as [[[net' sse'] sim']|e] eqn:Hrows; [|done].
  cbn [mbind result_bind]. intros [= <- <-].
  apply trials_Ok in Hrows as (recs & -> & -> & Hmap). done.
Qed.

(** C3: the error that [simulate] returns is the sum, over the four rows of
    the truth table in order, of the squared difference between the decoded
    response and the expected output; the fitness given to the genome is one
    minus that error, as it is: when every trial has the worst-case response
    the fitness is [-9]. *)
Theorem fitness_of_error (g : genome) (sse : Q) (sim : list trial_record) :
  simulate g = Ok (sse, sim) →
  sse = fold_left (λ acc r, (acc + trial_error r)%Q) sim 0.0%Q
  ∧ map (λ r, (tr_input r, tr_expected r)) sim = zip xor_inputs xor_outputs
  ∧ eval_fitness [g] = Ok [set_fitness (1 - sse)%Q g]
  ∧ ((∀ r, r ∈ sim → tr_t0 r = None ∨ tr_t1 r = None) →
     (1 - sse == -9)%Q).
Proof.
  intros Hsim. destruct (simulate_Ok g sse sim Hsim) as [Hsse Hrows].
  split; [done|]. split; [done|]. split.
  - cbn [eval_fitness]. by rewrite Hsim.
  - intros Hworst.
    assert (Herr : ∀ r, r ∈ sim →
              trial_error r = ((-1.0 - inject_Z (tr_expected r)) ^ 2)%Q).
    { intros r Hr. unfold trial_error.
      destruct (Hworst r Hr) as [-> | ->]; [done|]. by destruct (tr_t0 r). }
    destruct sim as [|r1 [|r2 [|r3 [|r4 [|r5 sim]]]]]; try done.
    injection Hrows as ? ? ? ? ? ? ? ?.
    rewrite Hsse. cbn [fold_left].
    rewrite !Herr by set_solver.
    repeat match goal with H : tr_expected _ = _ |- _ => rewrite H end.
    reflexivity.
Qed.

(** C10: when a firing is detected in the very first iteration of a trial,
    on a network that keeps its neurons and whose output ids are neurons,
    every trace has one sample, the look-back at the second-to-last sample
    raises [IndexError], and so do the trial and [simulate]. *)
Theorem first_step_spike_raises (g : genome) (r : nat) (x : Z * Z) (y : Z)
    (net : network) (sse : Q) (sim : list trial_record) :
  zip xor_inputs xor_outputs !! r = Some (x, y) →
  for_each trial (take r (zip xor_inputs xor_outputs))
    (create_phenotype g neuron_params, 0.0%Q, []) = Ok (net, sse, sim) →
  dom (neurons (advance dt (set_inputs x (reset net))).1) = dom (neurons net) →
  (∀ k o, outputs (advance dt (set_inputs x (reset net))).1 !! k = Some o →
          o ∈ dom (neurons net)) →
  fires 0 (output_at (set_inputs x (reset net)) 0) = true
  ∨ fires 1 (output_at (set_inputs x (reset net)) 0) = true →
  (∃ nd, append_samples (dt * inject_Z (Z.of_nat 0))%Q
           (neurons (advance dt (set_inputs x (reset net))).1)
           (init_data (neurons net)) = Ok nd
         ∧ ∀ i l, nd !! i = Some l → length l = 1%nat)
  ∧ step 0 (trial_start net x) = Raise IndexError
  ∧ run_steps net x = Raise IndexError
  ∧ simulate g = Raise IndexError.
Proof.
  intros Hrow Hpre Hdom Houts Hfire.
  destruct (step_0_raises net x Hdom Houts Hfire) as [Hone Hstep].
  split; [done|]. split; [done|].
  assert (Hrun : run_steps net x = Raise IndexError).
  { unfold run_steps. change num_steps with (S 199).
    cbn [seq for_each]. by rewrite Hstep. }
  split; [done|].
  unfold simulate.
  rewrite <- (take_drop_middle _ _ _ Hrow), for_each_app, Hpre.
  cbn [mbind result_bind for_each]. by rewrite trial_unfold, Hrun.
Qed.

End Trials.

(** * Two runs of [simulate] *)

Section Determinism.
Context (lib1 lib2 : Iznn).
Variable R : @network lib1 → @network lib2 → Prop.

Hypothesis R_neurons : ∀ n1 n2, R n1 n2 → neurons n1 = neurons n2.
Hypothesis R_outputs : ∀ n1 n2, R n1 n2 → outputs n1 = outputs n2.
Hypothesis R_reset : ∀ n1 n2, R n1 n2 → R (reset n1) (reset n2).
Hypothesis R_set_inputs :
  ∀ x n1 n2, R n1 n2 → R (set_inputs x n1) (set_inputs x n2).
Hypothesis R_advance :
  ∀ d n1 n2, R n1 n2 →
    R (advance d n1).1 (advance d n2).1 ∧ (advance d n1).2 = (advance d n2).2.







End Determinism.


(** * The replay in [run] *)

Section ReplayAgrees.
Context `{lib : Iznn}.






End ReplayAgrees.

(** * Where a recorded first spike comes from *)

Section Origin.
Context `{lib : Iznn}.

Lemma py_index_elem {A} (l : list A) (i : Z) (a : A) :
  py_index l i = Ok a → a ∈ l.
Proof.
  unfold py_index. destruct (_ && _); [|done].
  destruct (l !! _) as [b|] eqn:Hb; [|done]. intros [= <-].
  by eapply list_elem_of_lookup_2.
Qed.

Lemma py_index_penultimate_snoc {A} (l : list A) (x a : A) :
  py_index (l ++ [x]) (-2) = Ok a → a ∈ l.
Proof.
  destruct l as [|y l _] using rev_ind.
  - by rewrite py_index_penultimate_short by (cbn; lia).
  - rewrite <- app_assoc. cbn [app]. rewrite py_index_penultimate.
    intros [= <-]. set_solver.
Qed.

(** Every sample of a trace was read at one of the steps, at the time of
    that step. *)
Lemma samples_elem (net : network) (j m : nat) (i : Z) (t v : Q) :
  (t, v) ∈ samples net j m i →
  ∃ n, (n < m)%nat ∧ t = (dt * inject_Z (Z.of_nat (j + n)))%Q
       ∧ sample_at net n i = Some v.
Proof.
  induction m as [|m IH]; [by intros ?%elem_of_nil|].
  rewrite samples_snoc. intros [Hin|Hin]%elem_of_app.
  - destruct (IH Hin) as (n & Hn & Ht & Hv). exists n. split; [lia|done].
  - destruct (sample_at net m i) as [w|] eqn:Hw;
      [|by apply elem_of_nil in Hin].
    apply list_elem_of_singleton in Hin. injection Hin as -> ->.
    exists m. split; [lia|done].
Qed.

(** The second-to-last sample after step [j] was read before step [j]. *)
Lemma samples_penultimate_before (net : network) (j : nat) (i : Z) (t v : Q) :
  py_index (samples net 0 (S j) i) (-2) = Ok (t, v) →
  ∃ n, (n < j)%nat ∧ t = (dt * inject_Z (Z.of_nat n))%Q
       ∧ sample_at net n i = Some v.
Proof.
  rewrite samples_snoc. intros Hpen.
  assert ((t, v) ∈ samples net 0 j i) as Hin.
  { destruct (sample_at net j i).
    - by apply py_index_penultimate_snoc in Hpen.
    - rewrite app_nil_r in Hpen. by apply py_index_elem in Hpen. }
  apply samples_elem in Hin as (n & Hn & Ht & Hv). by exists n.
Qed.

(** A slot that is unset at the end of a run was unset at its start, and no
    firing was detected on it in any iteration. *)
Lemma run_slot_none (k : Z) (j m : nat) (s s' : loop_state) :
  k = 0%Z ∨ k = 1%Z →
  for_each step (seq j m) s = Ok s' →
  st_t k s' = None →
  st_t k s = None
  ∧ ∀ n, (n < m)%nat → fires k (output_at (st_net s) n) = false.
Proof.
  intros Hk. revert j s. induction m as [|m IH]; intros j s Hrun Hnone.
  - injection Hrun as <-. split; [done|lia].
  - cbn [seq for_each] in Hrun.
    destruct (step j s) as [s1|e] eqn:Hstep; [|done].
    cbn [mbind result_bind] in Hrun.
    destruct (IH _ _ Hrun Hnone) as [Hnone1 Hquiet1].
    destruct (st_t k s) as [t|] eqn:Ht.
    { destruct (step_slot_kept k j s s1 t Hk Ht Hstep). congruence. }
    split; [done|].
    apply step_Ok in Hstep as (Hnet & _ & Hcap). specialize (Hcap k Hk).
    rewrite Ht, Hnone1 in Hcap.
    intros [|n] Hn.
    + destruct (fires k (output_at (st_net s) 0)) eqn:Hf; [|done].
      apply capture_fired in Hcap as (? & ? & ? & ? & _ & _ & _ & [=]).
      exact Hf.
    + rewrite output_at_S, <- Hnet. apply Hquiet1. lia.
Qed.

(** A slot that is set at the end of a run that started with fresh traces
    and unset slots was set at the first step at which a firing was detected
    on it, from the second-to-last sample of the trace of the output
    neuron of that step. *)
Lemma run_slot_origin (k : Z) (m : nat) (s s' : loop_state) (t : Q) :
  k = 0%Z ∨ k = 1%Z →
  st_t k s = None →
  (∀ i l, st_data s !! i = Some l → l = []) →
  for_each step (seq 0 m) s = Ok s' →
  st_t k s' = Some t →
  ∃ j o v,
    (j < m)%nat
    ∧ (∀ n, (n < j)%nat → fires k (output_at (st_net s) n) = false)
    ∧ fires k (output_at (st_net s) j) = true
    ∧ py_index (outputs (advance_n (S j) (st_net s))) k = Ok o
    ∧ py_index (samples (st_net s) 0 (S j) o) (-2) = Ok (t, v)
    ∧ st_v k s' = Some v.
Proof.
  intros Hk Hnone Hfresh. revert s' t.
  induction m as [|m IH]; intros s' t Hrun Ht.
  - injection Hrun as <-. congruence.
  - rewrite seq_S, for_each_snoc in Hrun. cbn [plus] in Hrun.
    destruct (for_each step (seq 0 m) s) as [s1|e] eqn:Hpre; [|done].
    cbn [mbind result_bind] in Hrun.
    destruct (st_t k s1) as [t1|] eqn:Ht1.
    + destruct (step_slot_kept k m s1 s' t1 Hk Ht1 Hrun) as [Ht' Hv'].
      assert (t1 = t) as -> by congruence.
      destruct (IH s1 t eq_refl Ht1) as (j & o & v & Hj & Hq & Hf & Ho & Hp & Hv).
      exists j, o, v. repeat split; try done; [lia|congruence].
    + destruct (run_slot_none k 0 m s s1 Hk Hpre Ht1) as [_ Hquiet].
      pose proof (run_net _ _ _ _ Hpre) as Hnet1.
      pose proof Hrun as Hstep.
      apply step_Ok in Hstep as (_ & _ & Hcap). specialize (Hcap k Hk).
      rewrite Ht1, Hnet1, Ht in Hcap. rewrite <- advance_n_last in Hcap.
      assert (Hfire : fires k (output_at (st_net s) m) = true).
      { destruct (fires k (output_at (st_net s) m)) eqn:Hf; [done|].
        by apply capture_quiet in Hcap. }
      apply capture_fired in Hcap as (o & l & t' & v & Ho & _ & _ & Heq);
        [|exact Hfire].
      injection Heq as <- Hv.
      destruct (step_first_fire k m s s1 s' o Hk Hnone (Hfresh o) Hquiet
                  Hfire Ho Hpre Hrun) as (t2 & v2 & Hpen & Ht2 & Hv2).
      assert (t2 = t) as -> by congruence.
      exists m, o, v2. repeat split; try done. lia.
Qed.

Lemma trial_start_fresh (net : network) (x : Z * Z) (i : Z)
    (l : list (Q * Q)) :
  st_data (trial_start net x) !! i = Some l → l = [].
Proof. apply init_data_fresh. Qed.

Lemma trial_start_unset (k : Z) (net : network) (x : Z * Z) :
  st_t k (trial_start net x) = None ∧ st_v k (trial_start net x) = None.
Proof. unfold st_t, st_v. by case_decide. Qed.

Lemma step_time_bounds (n : nat) :
  (n + 1 < num_steps)%nat →
  (0 <= dt * inject_Z (Z.of_nat n) <= 49.5)%Q.
Proof.
  intros Hn. change num_steps with 200%nat in Hn.
  assert (0 <= inject_Z (Z.of_nat n) <= inject_Z 198)%Q as [H0 H1].
  { split; [change 0%Q with (inject_Z 0)|]; rewrite <- Zle_Qle; lia. }
  unfold dt. change (inject_Z 198) with 198%Q in H1. lra.
Qed.

(** X7: the time and potential recorded for a slot in a completed trial are
    a sample of the output neuron taken at a step before the step of the
    first detection: the time is [dt * n] for a step [n] at least two steps
    before the end, so it lies between 0 and 49.5, and the potential is the
    one read at step [n]. *)
Theorem recorded_spike_origin (k : Z) (net : network) (x : Z * Z)
    (st : loop_state) (t : Q) :
  k = 0%Z ∨ k = 1%Z →
  run_steps net x = Ok st →
  st_t k st = Some t →
  ∃ j n o v,
    (n < j < num_steps)%nat
    ∧ (∀ i, (i < j)%nat →
         fires k (output_at (set_inputs x (reset net)) i) = false)
    ∧ fires k (output_at (set_inputs x (reset net)) j) = true
    ∧ outputs (advance_n (S j) (set_inputs x (reset net))) !! Z.to_nat k
      = Some o
    ∧ t = (dt * inject_Z (Z.of_nat n))%Q
    ∧ st_v k st = Some v
    ∧ sample_at (set_inputs x (reset net)) n o = Some v
    ∧ (0 <= t <= 49.5)%Q.
Proof.
  intros Hk Hrun Ht.
  destruct (run_slot_origin k num_steps (trial_start net x) st t Hk
              (proj1 (trial_start_unset k net x)) (trial_start_fresh net x)
              Hrun Ht) as (j & o & v & Hj & Hq & Hf & Ho & Hp & Hv).
  apply samples_penultimate_before in Hp as (n & Hn & -> & Hs).
  exists j, n, o, v. split; [lia|]. split; [done|]. split; [done|].
  split; [apply py_index_Ok_nonneg in Ho; [done|destruct Hk as [-> | ->]; lia]|].
  split; [done|]. split; [done|]. split; [done|].
  apply step_time_bounds. lia.
Qed.

(** X8: at the end of a completed trial the time of a slot is unset exactly
    when no firing was detected on the slot at any step, and the potential
    of the slot is unset exactly when its time is. *)
Theorem slot_unset_iff_silent (k : Z) (net : network) (x : Z * Z)
    (st : loop_state) :
  k = 0%Z ∨ k = 1%Z →
  run_steps net x = Ok st →
  (st_t k st = None
   ↔ ∀ n, (n < num_steps)%nat →
       fires k (output_at (set_inputs x (reset net)) n) = false)
  ∧ (st_v k st = None ↔ st_t k st = None).
Proof.
  intros Hk Hrun. destruct (trial_start_unset k net x) as [Ht0 Hv0].
  split; split.
  - intros Hnone. by destruct (run_slot_none k 0 num_steps _ st Hk Hrun Hnone).
  - intros Hquiet.
    by destruct (run_slot_quiet k 0 num_steps _ st Hk Ht0 Hquiet Hrun).
  - intros Hv. destruct (st_t k st) as [t|] eqn:Ht; [|done].
    destruct (run_slot_origin k num_steps (trial_start net x) st t Hk Ht0
                (trial_start_fresh net x) Hrun Ht)
      as (j & o & v & _ & _ & _ & _ & _ & Hv'). congruence.
  - intros Hnone.
    destruct (run_slot_none k 0 num_steps _ st Hk Hrun Hnone) as [_ Hquiet].
    destruct (run_slot_quiet k 0 num_steps _ st Hk Ht0 Hquiet Hrun) as [_ ->].
    done.
Qed.




End Origin.

(** * More on the decoder *)

Section DecoderMore.
Local Open Scope Q_scope.


Lemma compute_output_range (t0 t1 : option Q) :
  compute_output t0 t1 = -1.0
  ∨ 0 <= compute_output t0 t1 <= 1.
Proof.
  destruct t0 as [a|], t1 as [b|]; try by left.
  right. destruct (compute_output_regimes a b) as [[? ->]|[[? ->]|[? ->]]]; lra.
Qed.


Lemma compute_output_is_1 (t0 t1 : option Q) :
  compute_output t0 t1 == 1
  ↔ ∃ a b, t0 = Some a ∧ t1 = Some b ∧ Qabs (a - b) <= 1.
Proof.
  destruct t0 as [a|], t1 as [b|].
  2-4: (split; [intros H; vm_compute in H; discriminate
               |intros (? & ? & ? & ? & ?); discriminate]).
  split.
  - intros H. exists a, b. split; [done|]. split; [done|].
    destruct (compute_output_regimes a b) as [[? Hc]|[[? Hc]|[? Hc]]];
      rewrite Hc in H; lra.
  - intros (? & ? & [= <-] & [= <-] & Hd).
    rewrite compute_output_high by lra. reflexivity.
Qed.

Lemma compute_output_is_0 (t0 t1 : option Q) :
  compute_output t0 t1 == 0
  ↔ ∃ a b, t0 = Some a ∧ t1 = Some b ∧ 11 <= Qabs (a - b).
Proof.
  destruct t0 as [a|], t1 as [b|].
  2-4: (split; [intros H; vm_compute in H; discriminate
               |intros (? & ? & ? & ? & ?); discriminate]).
  split.
  - intros H. exists a, b. split; [done|]. split; [done|].
    destruct (compute_output_regimes a b) as [[? Hc]|[[? Hc]|[? Hc]]];
      rewrite Hc in H; lra.
  - intros (? & ? & [= <-] & [= <-] & Hd).
    rewrite compute_output_low by lra. reflexivity.
Qed.


End DecoderMore.

(** * The range of the fitness *)

Section Fitness.
Context `{lib : Iznn}.
Local Open Scope Q_scope.

Lemma trial_error_expected_0 (r : trial_record) :
  tr_expected r = 0%Z → 0 <= trial_error r <= 1.
Proof.
  intros Hy. unfold trial_error. rewrite Hy.
  destruct (compute_output_range (tr_t0 r) (tr_t1 r)) as [->|Hc];
    [by vm_compute|].
  change ((?c - inject_Z 0) ^ 2) with ((c - 0) * (c - 0)). nra.
Qed.

Lemma trial_error_expected_1 (r : trial_record) :
  tr_expected r = 1%Z → 0 <= trial_error r <= 4.
Proof.
  intros Hy. unfold trial_error. rewrite Hy.
  destruct (compute_output_range (tr_t0 r) (tr_t1 r)) as [->|Hc];
    [by vm_compute|].
  change ((?c - inject_Z 1) ^ 2) with ((c - 1) * (c - 1)). nra.
Qed.

Lemma trial_error_0 (r : trial_record) :
  trial_error r == 0
  ↔ compute_output (tr_t0 r) (tr_t1 r) == inject_Z (tr_expected r).
Proof.
  unfold trial_error.
  change ((?c - ?y) ^ 2) with ((c - y) * (c - y)). split.
  - intros [H|H]%Qmult_integral; lra.
  - intros ->. ring.
Qed.

(** The four records of a completed evaluation, with their expected
    outputs. *)
Lemma simulate_records (g : genome) (sse : Q) (sim : list trial_record) :
  simulate g = Ok (sse, sim) →
  ∃ r1 r2 r3 r4,
    sim = [r1; r2; r3; r4]
    ∧ tr_expected r1 = 0%Z ∧ tr_expected r2 = 1%Z
    ∧ tr_expected r3 = 1%Z ∧ tr_expected r4 = 0%Z
    ∧ sse = 0.0 + trial_error r1 + trial_error r2 + trial_error r3
            + trial_error r4.
Proof.
  intros [-> Hrows]%simulate_Ok.
  destruct sim as [|r1 [|r2 [|r3 [|r4 [|r5 sim]]]]]; try done.
  injection Hrows as ? ? ? ? ? ? ? ?. by exists r1, r2, r3, r4.
Qed.

(** X4: the error of an evaluation that returns lies between 0 and 10, and
    the fitness between -9 and 1. *)
Theorem fitness_bounds (g : genome) (sse : Q) (sim : list trial_record) :
  simulate g = Ok (sse, sim) →
  0 <= sse <= 10 ∧ -9 <= 1 - sse <= 1.
Proof.
  intros (r1 & r2 & r3 & r4 & _ & H1 & H2 & H3 & H4 & ->)%simulate_records.
  pose proof (trial_error_expected_0 r1 H1).
  pose proof (trial_error_expected_1 r2 H2).
  pose proof (trial_error_expected_1 r3 H3).
  pose proof (trial_error_expected_0 r4 H4). lra.
Qed.

(** A record whose response is the expected output: on a row that expects
    1 both outputs fired at most one millisecond apart, on a row that
    expects 0 at least eleven milliseconds apart. *)
Lemma trial_error_0_timing (r : trial_record) :
  tr_expected r = 0%Z ∨ tr_expected r = 1%Z →
  trial_error r == 0
  ↔ ∃ a b, tr_t0 r = Some a ∧ tr_t1 r = Some b
           ∧ ((tr_expected r = 1%Z ∧ Qabs (a - b) <= 1)
              ∨ (tr_expected r = 0%Z ∧ 11 <= Qabs (a - b))).
Proof.
  intros Hy. rewrite trial_error_0. destruct Hy as [Hy|Hy]; rewrite Hy.
  - change (inject_Z 0) with 0. rewrite compute_output_is_0.
    split; intros (a & b & ? & ? & H); exists a, b; (split; [done|]);
      (split; [done|]); [by right|by destruct H as [[? ?]|[? ?]]].
  - change (inject_Z 1) with 1. rewrite compute_output_is_1.
    split; intros (a & b & ? & ? & H); exists a, b; (split; [done|]);
      (split; [done|]); [by left|by destruct H as [[? ?]|[? ?]]].
Qed.

(** X5: an evaluation that returns has the maximal fitness 1 exactly when,
    in every trial, both outputs fired, at most one millisecond apart on the
    rows that expect 1 and at least eleven milliseconds apart on the rows
    that expect 0. *)
Theorem fitness_is_maximal (g : genome) (sse : Q) (sim : list trial_record) :
  simulate g = Ok (sse, sim) →
  1 - sse == 1
  ↔ ∀ r, r ∈ sim →
      ∃ a b, tr_t0 r = Some a ∧ tr_t1 r = Some b
             ∧ ((tr_expected r = 1%Z ∧ Qabs (a - b) <= 1)
                ∨ (tr_expected r = 0%Z ∧ 11 <= Qabs (a - b))).
Proof.
  intros (r1 & r2 & r3 & r4 & -> & H1 & H2 & H3 & H4 & ->)%simulate_records.
  pose proof (trial_error_expected_0 r1 H1).
  pose proof (trial_error_expected_1 r2 H2).
  pose proof (trial_error_expected_1 r3 H3).
  pose proof (trial_error_expected_0 r4 H4).
  pose proof (trial_error_0_timing r1 (or_introl H1)) as T1.
  pose proof (trial_error_0_timing r2 (or_intror H2)) as T2.
  pose proof (trial_error_0_timing r3 (or_intror H3)) as T3.
  pose proof (trial_error_0_timing r4 (or_introl H4)) as T4.
  split.
  - intros Hfit r Hr.
    repeat (apply elem_of_cons in Hr as [-> | Hr];
            [first [apply T1|apply T2|apply T3|apply T4]; lra|]).
    by apply elem_of_nil in Hr.
  - intros Hall.
    assert (trial_error r1 == 0) by (apply T1, Hall; repeat constructor).
    assert (trial_error r2 == 0) by (apply T2, Hall; repeat constructor).
    assert (trial_error r3 == 0) by (apply T3, Hall; repeat constructor).
    assert (trial_error r4 == 0) by (apply T4, Hall; repeat constructor).
    lra.
Qed.

(** X6: [eval_fitness] on a batch: when it returns, every genome has got one
    minus the error of its own evaluation, in order; it raises exactly when
    the evaluation of some genome raises, with the exception of the first
    such genome, so that one failing genome aborts the whole batch. *)
Theorem eval_fitness_batch (gs : list genome) :
  match eval_fitness gs with
  | Ok gs' =>
      Forall2 (λ g g', ∃ sse sim, simulate g = Ok (sse, sim)
                                  ∧ g' = set_fitness (1 - sse) g) gs gs'
  | Raise e =>
      ∃ n g, gs !! n = Some g ∧ simulate g = Raise e
             ∧ ∀ i g', (i < n)%nat → gs !! i = Some g' →
                 is_Ok (simulate g') = true
  end.
Proof.
  induction gs as [|g gs IH]; [by constructor|].
  cbn [eval_fitness]. destruct (simulate g) as [[sse sim]|e] eqn:Hg;
    cbn [mbind result_bind].
  - destruct (eval_fitness gs) as [gs'|e]; cbn [mbind result_bind].
    + constructor; [by exists sse, sim|done].
    + destruct IH as (n & g' & Hn & Hg' & Hbefore).
      exists (S n), g'. split; [done|]. split; [done|].
      intros [|i] g'' Hi Hlook.
      * injection Hlook as <-. by rewrite Hg.
      * apply (Hbefore i); [lia|done].
  - exists 0%nat, g. split; [done|]. split; [done|]. intros; lia.
Qed.

End Fitness.

(** * Traces and exceptions of a trial *)

Section Edges.
Context `{lib : Iznn}.

Lemma py_index_Raise {A} (l : list A) (i : Z) (e : exn) :
  py_index l i = Raise e → e = IndexError.
Proof.
  unfold py_index. destruct (_ && _); [|congruence].
  destruct (l !! _); cbn; congruence.
Qed.

(** No iteration creates or removes a trace. *)
Lemma run_dom (j m : nat) (s s' : loop_state) :
  for_each step (seq j m) s = Ok s' → dom (st_data s') = dom (st_data s).
Proof.
  intros Hrun. apply set_eq. intros i.
  rewrite !elem_of_dom, (run_data _ _ _ _ i Hrun). apply fmap_is_Some.
Qed.

(** X10: the traces of a completed trial are those of the neurons that the
    network had when the trial started, and every entry of a trace is a
    sample of its neuron: the potential read at one of the steps of the
    trial, with the time of that step. *)
Theorem traces_hold_samples (net : network) (x : Z * Z) (st : loop_state) :
  run_steps net x = Ok st →
  dom (st_data st) = dom (neurons net)
  ∧ ∀ i l, st_data st !! i = Some l →
      (length l ≤ num_steps)%nat
      ∧ ∀ t v, (t, v) ∈ l →
          ∃ n, (n < num_steps)%nat
               ∧ t = (dt * inject_Z (Z.of_nat n))%Q
               ∧ sample_at (set_inputs x (reset net)) n i = Some v.
Proof.
  intros Hrun. split.
  - rewrite (run_dom _ _ _ _ Hrun). apply dom_fmap_L.
  - intros i l Hl. pose proof (run_data _ _ _ _ i Hrun) as Hd.
    rewrite Hl in Hd. cbn [trial_start st_data st_net] in Hd.
    rewrite init_data_lookup in Hd. destruct (neurons net !! i); [|done].
    cbn [fmap option_fmap option_map app] in Hd.
    apply (inj Some) in Hd. subst l.
    split; [apply samples_length|].
    intros t v Hin. by apply samples_elem in Hin.
Qed.

(** X11: when the network, at some step of a trial, has a neuron that it did
    not have when the trial started, the append to the trace of that neuron
    raises [KeyError], which ends the trial. *)
Theorem new_neuron_raises (net : network) (x : Z * Z) (j : nat)
    (s : loop_state) :
  (j < num_steps)%nat →
  for_each step (seq 0 j) (trial_start net x) = Ok s →
  ¬ dom (neurons (advance_n (S j) (set_inputs x (reset net))))
    ⊆ dom (neurons net) →
  step j s = Raise KeyError ∧ run_steps net x = Raise KeyError.
Proof.
  intros Hj Hpre Hnew.
  assert (Hstep : step j s = Raise KeyError).
  { unfold step. rewrite (run_net _ _ _ _ Hpre). cbn [trial_start st_net].
    rewrite advance_n_last in Hnew.
    destruct (advance dt (advance_n j _)) as [net' output]. cbn [fst] in Hnew.
    rewrite append_samples_Raise; [done|].
    rewrite (run_dom _ _ _ _ Hpre). cbn [trial_start st_data].
    unfold init_data. by rewrite dom_fmap_L. }
  split; [done|]. unfold run_steps.
  rewrite (seq_split j num_steps Hj), for_each_app, Hpre.
  cbn [mbind result_bind app for_each]. by rewrite Hstep.
Qed.

(** X12: a network whose [advance] returns fewer than two output values
    cannot be evaluated: the first iteration raises [IndexError], on
    [output[0]], on [output[1]] or on the look-back. *)
Theorem too_few_outputs_raise (net : network) (x : Z * Z) :
  dom (neurons (advance dt (set_inputs x (reset net))).1)
    ⊆ dom (neurons net) →
  (∀ k o, outputs (advance dt (set_inputs x (reset net))).1 !! k = Some o →
          o ∈ dom (neurons net)) →
  (length (output_at (set_inputs x (reset net)) 0) < 2)%nat →
  step 0 (trial_start net x) = Raise IndexError
  ∧ run_steps net x = Raise IndexError.
Proof.
  intros Hdom Houts Hlen. unfold output_at in Hlen. cbn in Hlen.
  assert (Hstep : step 0 (trial_start net x) = Raise IndexError).
  { unfold step. cbn [trial_start st_net st_data st_t0 st_v0 st_t1 st_v1].
    destruct (advance dt (set_inputs x (reset net))) as [net1 output].
    cbn [fst snd] in *.
    destruct (append_samples_Ok (dt * inject_Z (Z.of_nat 0))%Q (neurons net1)
                (init_data (neurons net))) as [nd Hnd].
    { unfold init_data. by rewrite dom_fmap_L. }
    rewrite Hnd. cbn [mbind result_bind].
    assert (Hshort : ∀ k, (0 ≤ k)%Z → ∀ o,
              py_index (outputs net1) k = Ok o →
              ∃ l, nd !! o = Some l ∧ (length l < 2)%nat).
    { intros k Hk o Ho. apply py_index_Ok_nonneg in Ho; [|done].
      apply Houts, elem_of_dom in Ho as [v Hv].
      rewrite (append_samples_lookup _ _ _ _ o Hnd), init_data_lookup, Hv.
      eexists. split; [done|]. destruct (neurons net1 !! o); cbn; lia. }
    destruct output as [|o0 [|o1 output]]; [done| |cbn in Hlen; lia].
    destruct (fires 0 [o0]) eqn:Hf.
    - by rewrite (capture_short 0 None [o0] (outputs net1) nd Hf
                    (Hshort 0%Z ltac:(lia))).
    - unfold fires in Hf. unfold capture.
      change (py_index [o0] 0) with (Ok o0) in *. cbn in Hf. cbn.
      by rewrite Hf. }
  split; [done|]. unfold run_steps. change num_steps with (S 199).
  cbn [seq for_each]. by rewrite Hstep.
Qed.

End Edges.

(** * Independence of the trials *)

Section Independence.
Context `{lib : Iznn}.

(** A network on which [reset] followed by [set_inputs] erases what earlier
    calls of [advance] and [set_inputs] did, and which keeps its neurons. *)
Hypothesis reset_erases_advance :
  ∀ x d n, set_inputs x (reset (advance d n).1) = set_inputs x (reset n).
Hypothesis reset_erases_inputs :
  ∀ x y n, set_inputs x (reset (set_inputs y (reset n)))
           = set_inputs x (reset n).
Hypothesis advance_keeps_neurons :
  ∀ d n, dom (neurons (advance d n).1) = dom (neurons n).
Hypothesis inputs_keep_neurons :
  ∀ x n, dom (neurons (set_inputs x (reset n))) = dom (neurons n).

Lemma reset_erases_advance_n (x : Z * Z) (k : nat) (n : network) :
  set_inputs x (reset (advance_n k n)) = set_inputs x (reset n).
Proof.
  induction k as [|k IH]; [done|].
  by rewrite advance_n_last, reset_erases_advance.
Qed.

Lemma advance_n_keeps_neurons (k : nat) (n : network) :
  dom (neurons (advance_n k n)) = dom (neurons n).
Proof.
  induction k as [|k IH]; [done|].
  by rewrite advance_n_last, advance_keeps_neurons.
Qed.

Lemma init_data_dom (ns ns' : gmap Z Q) :
  dom ns = dom ns' → init_data ns = init_data ns'.
Proof.
  intros Hdom. apply map_eq. intros i. rewrite !init_data_lookup.
  assert (is_Some (ns !! i) ↔ is_Some (ns' !! i)) as His
    by (by rewrite <- !elem_of_dom, Hdom).
  destruct (ns !! i) as [v|], (ns' !! i) as [v'|]; try done.
  - by destruct (proj1 His (ex_intro _ v eq_refl)).
  - by destruct (proj2 His (ex_intro _ v' eq_refl)).
Qed.

Lemma trial_start_same (net net0 : network) (x : Z * Z) :
  (∀ y, set_inputs y (reset net) = set_inputs y (reset net0)) →
  dom (neurons net) = dom (neurons net0) →
  trial_start net x = trial_start net0 x.
Proof.
  intros Hstart Hdom. unfold trial_start.
  by rewrite Hstart, (init_data_dom _ _ Hdom).
Qed.

Lemma trials_independent (net0 : network) (rows : list (Z * Z * Z))
    (net net' : network) (sse sse' : Q) (sim sim' : list trial_record) :
  (∀ y, set_inputs y (reset net) = set_inputs y (reset net0)) →
  dom (neurons net) = dom (neurons net0) →
  for_each trial rows (net, sse, sim) = Ok (net', sse', sim') →
  ∃ recs,
    sim' = sim ++ recs
    ∧ Forall2 (λ row rec,
         ∃ st, run_steps net0 row.1 = Ok st
               ∧ rec = TrialRecord row.1 row.2 (st_t0 st) (st_t1 st)
                         (st_v0 st) (st_v1 st) (st_data st)) rows recs.
Proof.
  revert net sse sim.
  induction rows as [|[x y] rows IH]; intros net sse sim Hstart Hdom.
  - cbn. intros [= <- <- <-]. exists []. by rewrite app_nil_r.
  - cbn [for_each]. rewrite trial_unfold. unfold run_steps at 1.
    rewrite (trial_start_same net net0 x Hstart Hdom).
    fold (run_steps net0 x).
    destruct (run_steps net0 x) as [st|e] eqn:Hrun;
      cbn [mbind result_bind]; [|done].
    intros Hrest. apply IH in Hrest as (recs & -> & Hall).
    + eexists (_ :: recs). rewrite <- app_assoc. split; [done|].
      constructor; [by exists st|done].
    + intros z. rewrite (run_net _ _ _ _ Hrun). cbn [trial_start st_net].
      by rewrite reset_erases_advance_n, reset_erases_inputs.
    + rewrite (run_net _ _ _ _ Hrun). cbn [trial_start st_net].
      by rewrite advance_n_keeps_neurons, inputs_keep_neurons.
Qed.

(** X13: on a network on which [reset] followed by [set_inputs] erases the
    earlier calls and which keeps its neurons, the trials of an evaluation
    do not influence one another: the record of every row is the record of
    that row run alone on the fresh phenotype. *)
Theorem trials_do_not_interact (g : genome) (sse : Q)
    (sim : list trial_record) (r : nat) (x : Z * Z) (y : Z) :
  simulate g = Ok (sse, sim) →
  zip xor_inputs xor_outputs !! r = Some (x, y) →
  ∃ st, run_steps (create_phenotype g neuron_params) x = Ok st
        ∧ sim !! r = Some (TrialRecord x y (st_t0 st) (st_t1 st)
                             (st_v0 st) (st_v1 st) (st_data st)).
Proof.
  unfold simulate.
  destruct (for_each trial _ _) as [[[net' sse'] sim']|e] eqn:Hrows; [|done].
  cbn [mbind result_bind]. intros [= <- <-] Hrow.
  apply (trials_independent (create_phenotype g neuron_params)) in Hrows
    as (recs & -> & Hall); [|done..].
  destruct (Forall2_lookup_l _ _ _ _ _ Hall Hrow) as (rec & Hrec & st & Hst & ->).
  by exists st.
Qed.

End Independence.

(** * Runs on the scripted network *)

Lemma below_all (P : nat → Prop) `{!∀ n, Decision (P n)} (m : nat) :
  forallb (λ n, bool_decide (P n)) (seq 0 m) = true →
  ∀ n, (n < m)%nat → P n.
Proof.
  intros Hall n Hn. rewrite forallb_forall in Hall.
  eapply bool_decide_eq_true_1, Hall, in_seq. lia.
Qed.

Lemma is_Ok_true {A} (r : result A) : is_Ok r = true → ∃ a, r = Ok a.
Proof. destruct r as [a|e]; [by exists a|done]. Qed.

Lemma first_spike_look_back_witness :
  ∃ st,
    run_steps (lib := Scripted.lib) (Scripted.phenotype Scripted.late)
      (0, 0)%Z = Ok st
    ∧ st_t 0 st = Some (dt * inject_Z 2)%Q
    ∧ st_v 0 st = Some (Scripted.potential 0 3).
Proof.
  destruct (is_Ok_true (run_steps (lib := Scripted.lib)
                          (Scripted.phenotype Scripted.late) (0, 0)%Z))
    as [st Hrun]; [vm_compute; reflexivity|].
  exists st. split; [exact Hrun|].
  destruct (first_spike_look_back (lib := Scripted.lib) 0
              (Scripted.phenotype Scripted.late) (0, 0)%Z st 3 0)
    as (j' & v & Hj & Hs & Ht & Hv).
  - left; reflexivity.
  - exact Hrun.
  - apply Nat.ltb_lt. vm_compute. reflexivity.
  - apply (below_all (λ n, fires 0 (output_at _ n) = false)).
    vm_compute. reflexivity.
  - vm_compute. reflexivity.
  - reflexivity.
  - vm_compute. eexists. reflexivity.
  - vm_compute. eexists. reflexivity.
  - injection Hj as <-. vm_compute in Hs. injection Hs as <-.
    split; [exact Ht|exact Hv].
Defined.

Lemma first_spike_kept_witness :
  ∃ s s',
    for_each step (seq 0 4)
      (trial_start (lib := Scripted.lib)
         (Scripted.phenotype Scripted.late) (0, 0)%Z) = Ok s
    ∧ for_each step (seq 4 196) s = Ok s'
    ∧ fires 0 (output_at (st_net s) 3) = true
    ∧ st_t 0 s' = Some (dt * inject_Z 2)%Q
    ∧ st_v 0 s' = st_v 0 s.
Proof.
  assert (Hchk :
    match for_each step (seq 0 4)
            (trial_start (lib := Scripted.lib)
               (Scripted.phenotype Scripted.late) (0, 0)%Z) with
    | Ok s =>
        match for_each step (seq 4 196) s with
        | Ok _ =>
            bool_decide (st_t 0 s = Some (dt * inject_Z 2)%Q)
            && fires 0 (output_at (st_net s) 3)
        | Raise _ => false
        end
    | Raise _ => false
    end = true) by (vm_compute; reflexivity).
  destruct (for_each step (seq 0 4) _) as [s|e]; [|discriminate Hchk].
  destruct (for_each step (seq 4 196) s) as [s'|e] eqn:Hrest;
    [|discriminate Hchk].
  apply andb_prop in Hchk as [Ht Hfire]. apply bool_decide_eq_true_1 in Ht.
  exists s, s'. split; [reflexivity|]. split; [exact Hrest|].
  split; [exact Hfire|].
  apply (first_spike_kept (lib := Scripted.lib) 0 (seq 4 196) s s').
  - left; reflexivity.
  - exact Ht.
  - exact Hrest.
Defined.

Lemma scripted_dom (net : Scripted.net) :
  dom (neurons (Iznn := Scripted.lib) net) = {[0%Z; 1%Z; 2%Z]}.
Proof. cbn. rewrite !dom_insert_L, dom_singleton_L. set_solver. Qed.

(** The scripted network is steady on its three neurons. *)
Lemma scripted_steady (net net' : Scripted.net) (m : nat) :
  steady (lib := Scripted.lib) net
    (dom (neurons (Iznn := Scripted.lib) net')) m.
Proof.
  intros n _. rewrite !scripted_dom. split; [done|]. split; [cbn; lia|].
  intros k Hk. destruct k as [|[|k]]; [| |lia]; eexists;
    (split; [reflexivity|set_solver]).
Qed.

Lemma step_count_witness :
  ∃ st l,
    run_steps (lib := Scripted.lib) (Scripted.phenotype Scripted.late)
      (1, 1)%Z = Ok st
    ∧ st_net st
      = advance_n (lib := Scripted.lib) 200
          (set_inputs (Iznn := Scripted.lib) (1, 1)%Z
             (reset (Iznn := Scripted.lib)
                (Scripted.phenotype Scripted.late)))
    ∧ st_data st !! 2%Z = Some l
    ∧ length l = 200%nat
    ∧ ∀ n, (n < 200)%nat →
        ∃ v, l !! n = Some ((dt * inject_Z (Z.of_nat n))%Q, v).
Proof.
  destruct (step_count (lib := Scripted.lib)) as (Hnum & _ & Hall).
  destruct (Hall (Scripted.phenotype Scripted.late) (1, 1)%Z)
    as [Hcompletes Hrun].
  destruct (is_Ok_true _ (Hcompletes (scripted_steady _ _ _) eq_refl eq_refl))
    as [st Hst].
  rewrite Hst in Hrun. destruct Hrun as [Hnet Hdata].
  destruct (Hdata 2%Z) as (l & Hl & Hlen & Hlook).
  - apply elem_of_dom. vm_compute. eexists. reflexivity.
  - apply (below_all (λ n, is_Some (sample_at _ n 2%Z))).
    vm_compute. reflexivity.
  - exists st, l. rewrite Hnum in Hnet, Hlen, Hlook.
    split; [exact Hst|]. split; [exact Hnet|]. split; [exact Hl|].
    split; [exact Hlen|].
    intros n Hn. destruct (Hlook n Hn) as (v & _ & Hv). by exists v.
Defined.

Lemma missing_spike_response_witness :
  compute_output None (Some 4.75%Q) = (-1.0)%Q
  ∧ compute_output (Some 4.75%Q) None = (-1.0)%Q
  ∧ ∃ st,
      run_steps (lib := Scripted.lib) (Scripted.phenotype Scripted.late)
        (1, 1)%Z = Ok st
      ∧ st_t0 st = Some (dt * inject_Z 4)%Q
      ∧ st_t1 st = None
      ∧ compute_output (st_t0 st) (st_t1 st) = (-1.0)%Q.
Proof.
  destruct (missing_spike_response (lib := Scripted.lib)) as [Hnone Htrial].
  split; [apply Hnone; left; reflexivity|].
  split; [apply Hnone; right; reflexivity|].
  assert (Hchk :
    match run_steps (lib := Scripted.lib)
            (Scripted.phenotype Scripted.late) (1, 1)%Z with
    | Ok st => bool_decide (st_t0 st = Some (dt * inject_Z 4)%Q)
    | Raise _ => false
    end = true) by (vm_compute; reflexivity).
  destruct (run_steps (lib := Scripted.lib)
              (Scripted.phenotype Scripted.late) (1, 1)%Z)
    as [st|e] eqn:Hrun; [|discriminate Hchk].
  apply bool_decide_eq_true_1 in Hchk.
  destruct (Htrial 1%Z (Scripted.phenotype Scripted.late) (1, 1)%Z st)
    as [Ht1 Hresp].
  - right; reflexivity.
  - exact Hrun.
  - apply (below_all (λ n, fires 1 (output_at _ n) = false)).
    vm_compute. reflexivity.
  - exists st. split; [reflexivity|]. split; [exact Hchk|].
    split; [exact Ht1|exact Hresp].
Defined.

Lemma fitness_of_error_witness :
  ∃ sse sim,
    simulate (lib := Scripted.lib) Scripted.silent = Ok (sse, sim)
    ∧ length sim = 4%nat
    ∧ eval_fitness (lib := Scripted.lib) [Scripted.silent]
      = Ok [Scripted.Gen (Scripted.gen_script Scripted.silent)
              (Some (1 - sse)%Q)]
    ∧ (1 - sse == -9)%Q.
Proof.
  assert (Hchk :
    match simulate (lib := Scripted.lib) Scripted.silent with
    | Ok (_, sim) =>
        forallb (λ r, bool_decide (tr_t0 r = None ∨ tr_t1 r = None)) sim
    | Raise _ => false
    end = true) by (vm_compute; reflexivity).
  destruct (simulate (lib := Scripted.lib) Scripted.silent)
    as [[sse sim]|e] eqn:Hsim; [|discriminate Hchk].
  destruct (fitness_of_error (lib := Scripted.lib) Scripted.silent sse sim Hsim)
    as (_ & Hrows & Hfit & Hneg).
  exists sse, sim. split; [reflexivity|].
  split; [by rewrite <- (length_map (λ r, (tr_input r, tr_expected r))), Hrows|].
  split; [exact Hfit|].
  apply Hneg. intros r Hr. rewrite forallb_forall in Hchk.
  apply list_elem_of_In, Hchk, bool_decide_eq_true_1 in Hr. exact Hr.
Defined.

Lemma first_step_spike_raises_witness :
  is_Ok (for_each (trial (lib := Scripted.lib))
           (take 1 (zip xor_inputs xor_outputs))
           (Scripted.phenotype Scripted.early, 0.0%Q, [])) = true
  ∧ simulate (lib := Scripted.lib) Scripted.early = Raise IndexError.
Proof.
  assert (Hchk :
    match for_each (trial (lib := Scripted.lib))
            (take 1 (zip xor_inputs xor_outputs))
            (Scripted.phenotype Scripted.early, 0.0%Q, []) with
    | Ok (net, _, _) =>
        fires 1 (output_at (set_inputs (0, 1)%Z (reset net)) 0)
    | Raise _ => false
    end = true) by (vm_compute; reflexivity).
  destruct (for_each trial (take 1 (zip xor_inputs xor_outputs)) _)
    as [[[net sse] sim]|e] eqn:Hpre; [|discriminate Hchk].
  split; [reflexivity|].
  destruct (first_step_spike_raises (lib := Scripted.lib) Scripted.early
              1 (0, 1)%Z 1%Z net sse sim) as (_ & _ & _ & Hsim).
  - reflexivity.
  - exact Hpre.
  - vm_compute. reflexivity.
  - intros k o Hk. destruct k as [|[|k]]; try discriminate Hk;
      injection Hk as <-; apply elem_of_dom; vm_compute; eexists; reflexivity.
  - right. exact Hchk.
  - exact Hsim.
Defined.


Lemma fitness_bounds_witness :
  ∃ sse sim,
    simulate (lib := Scripted.lib) Scripted.late = Ok (sse, sim)
    ∧ (0 <= sse <= 10)%Q ∧ (-9 <= 1 - sse <= 1)%Q.
Proof.
  destruct (is_Ok_true (simulate (lib := Scripted.lib) Scripted.late))
    as [[sse sim] Hsim]; [vm_compute; reflexivity|].
  exists sse, sim. split; [exact Hsim|].
  exact (fitness_bounds (lib := Scripted.lib) Scripted.late sse sim Hsim).
Defined.

Lemma fitness_is_maximal_witness :
  ∃ sse sim,
    simulate (lib := Scripted.lib) Scripted.solver = Ok (sse, sim)
    ∧ (1 - sse == 1)%Q
    ∧ ∀ r, r ∈ sim →
        ∃ a b, tr_t0 r = Some a ∧ tr_t1 r = Some b
               ∧ ((tr_expected r = 1%Z ∧ (Qabs (a - b) <= 1)%Q)
                  ∨ (tr_expected r = 0%Z ∧ (11 <= Qabs (a - b))%Q)).
Proof.
  assert (Hchk :
    match simulate (lib := Scripted.lib) Scripted.solver with
    | Ok (sse, _) => Qeq_bool (1 - sse) 1
    | Raise _ => false
    end = true) by (vm_compute; reflexivity).
  destruct (simulate (lib := Scripted.lib) Scripted.solver)
    as [[sse sim]|e] eqn:Hsim; [|discriminate Hchk].
  apply Qeq_bool_eq in Hchk.
  exists sse, sim. split; [reflexivity|]. split; [exact Hchk|].
  apply (fitness_is_maximal (lib := Scripted.lib) Scripted.solver sse sim Hsim).
  exact Hchk.
Defined.

Lemma recorded_spike_origin_witness :
  ∃ st j n,
    run_steps (lib := Scripted.lib) (Scripted.phenotype Scripted.late)
      (0, 0)%Z = Ok st
    ∧ st_t 1 st = Some (dt * inject_Z 11)%Q
    ∧ (n < j < num_steps)%nat
    ∧ (dt * inject_Z 11 = dt * inject_Z (Z.of_nat n))%Q
    ∧ (0 <= dt * inject_Z 11 <= 49.5)%Q.
Proof.
  assert (Hchk :
    match run_steps (lib := Scripted.lib)
            (Scripted.phenotype Scripted.late) (0, 0)%Z with
    | Ok st => bool_decide (st_t 1 st = Some (dt * inject_Z 11)%Q)
    | Raise _ => false
    end = true) by (vm_compute; reflexivity).
  destruct (run_steps (lib := Scripted.lib)
              (Scripted.phenotype Scripted.late) (0, 0)%Z)
    as [st|e] eqn:Hrun; [|discriminate Hchk].
  apply bool_decide_eq_true_1 in Hchk.
  destruct (recorded_spike_origin (lib := Scripted.lib) 1
              (Scripted.phenotype Scripted.late) (0, 0)%Z st _
              (or_intror eq_refl) Hrun Hchk)
    as (j & n & o & v & Hnj & _ & _ & _ & Ht & _ & _ & Hb).
  exists st, j, n. split; [reflexivity|]. split; [exact Hchk|].
  split; [exact Hnj|]. split; [exact Ht|exact Hb].
Defined.

Lemma slot_unset_iff_silent_witness :
  ∃ st,
    run_steps (lib := Scripted.lib) (Scripted.phenotype Scripted.late)
      (1, 1)%Z = Ok st
    ∧ st_t 1 st = None ∧ st_v 1 st = None.
Proof.
  destruct (is_Ok_true (run_steps (lib := Scripted.lib)
                          (Scripted.phenotype Scripted.late) (1, 1)%Z))
    as [st Hrun]; [vm_compute; reflexivity|].
  destruct (slot_unset_iff_silent (lib := Scripted.lib) 1
              (Scripted.phenotype Scripted.late) (1, 1)%Z st
              (or_intror eq_refl) Hrun) as [Ht Hv].
  assert (Hnone : st_t 1 st = None).
  { apply Ht. apply (below_all (λ n, fires 1 (output_at _ n) = false)).
    vm_compute. reflexivity. }
  exists st. split; [exact Hrun|]. split; [exact Hnone|].
  apply Hv. exact Hnone.
Defined.


Lemma traces_hold_samples_witness :
  ∃ st,
    run_steps (lib := Scripted.lib) (Scripted.phenotype Scripted.late)
      (0, 1)%Z = Ok st
    ∧ dom (st_data st)
      = dom (neurons (Iznn := Scripted.lib) (Scripted.phenotype Scripted.late))
    ∧ ∀ i l, st_data st !! i = Some l → (length l ≤ 200)%nat.
Proof.
  destruct (is_Ok_true (run_steps (lib := Scripted.lib)
                          (Scripted.phenotype Scripted.late) (0, 1)%Z))
    as [st Hrun]; [vm_compute; reflexivity|].
  destruct (traces_hold_samples (lib := Scripted.lib)
              (Scripted.phenotype Scripted.late) (0, 1)%Z st Hrun)
    as [Hdom Hall].
  exists st. split; [exact Hrun|]. split; [exact Hdom|].
  intros i l Hl. destruct (Hall i l Hl) as [Hlen _]. exact Hlen.
Defined.

Lemma new_neuron_raises_witness :
  run_steps (lib := Scripted.lib_sprouting) (Scripted.phenotype Scripted.late)
    (0, 0)%Z = Raise KeyError.
Proof.
  destruct (is_Ok_true
              (for_each (step (lib := Scripted.lib_sprouting)) (seq 0 1)
                 (trial_start (lib := Scripted.lib_sprouting)
                    (Scripted.phenotype Scripted.late) (0, 0)%Z)))
    as [s Hpre]; [vm_compute; reflexivity|].
  destruct (new_neuron_raises (lib := Scripted.lib_sprouting)
              (Scripted.phenotype Scripted.late) (0, 0)%Z 1 s)
    as [_ Hrun].
  - apply Nat.ltb_lt. vm_compute. reflexivity.
  - exact Hpre.
  - intros Hsub. specialize (Hsub 3%Z). rewrite !elem_of_dom in Hsub.
    destruct Hsub as [v Hv]; [vm_compute; eexists; reflexivity|].
    vm_compute in Hv. discriminate Hv.
  - exact Hrun.
Defined.

Lemma too_few_outputs_raise_witness :
  run_steps (lib := Scripted.lib_single) (Scripted.phenotype Scripted.silent)
    (0, 0)%Z = Raise IndexError.
Proof.
  destruct (too_few_outputs_raise (lib := Scripted.lib_single)
              (Scripted.phenotype Scripted.silent) (0, 0)%Z) as [_ Hrun].
  - refine (bool_decide_eq_true_1 _ _). vm_compute. reflexivity.
  - intros k o Hk. destruct k as [|k]; [|discriminate Hk].
    injection Hk as <-. apply elem_of_dom. vm_compute. eexists. reflexivity.
  - cbn. lia.
  - exact Hrun.
Defined.

Lemma trials_do_not_interact_witness :
  ∃ sse sim st,
    simulate (lib := Scripted.lib) Scripted.late = Ok (sse, sim)
    ∧ run_steps (lib := Scripted.lib) (Scripted.phenotype Scripted.late)
        (1, 0)%Z = Ok st
    ∧ sim !! 2%nat
      = Some (TrialRecord (1, 0)%Z 1%Z (st_t0 st) (st_t1 st)
                (st_v0 st) (st_v1 st) (st_data st)).
Proof.
  destruct (is_Ok_true (simulate (lib := Scripted.lib) Scripted.late))
    as [[sse sim] Hsim]; [vm_compute; reflexivity|].
  destruct (trials_do_not_interact (lib := Scripted.lib)) with
    (g := Scripted.late) (sse := sse) (sim := sim) (r := 2%nat)
    (x := (1, 0)%Z) (y := 1%Z) as (st & Hst & Hrec).
  - intros x d n. reflexivity.
  - intros x y n. reflexivity.
  - intros d n. by rewrite !scripted_dom.
  - intros x n. by rewrite !scripted_dom.
  - exact Hsim.
  - reflexivity.
  - exists sse, sim, st. split; [exact Hsim|]. split; [exact Hst|exact Hrec].
Defined.
